(** * The SQL agent constructor [create_sql_agent]

    A shallow embedding of
    [libs/community/langchain_community/agent_toolkits/sql/base.py]
    and the properties of the agent-construction dispatcher.

    The constructor is a single pass of straight-line Python: it raises
    or it returns one [AgentExecutor].  Raising is modelled by the
    [Outcome] monad below.

    The development also embeds the NLPCloud wrapper of
    [libs/community/langchain_community/llms/nlpcloud.py] and the
    environment report of [libs/core/langchain_core/sys_info.py]. *)

From Stdlib Require Import String Ascii List ZArith Bool Lia.
From Stdlib Require Import Decimal DecimalString.
From Stdlib Require Import Sorted.
From Stdlib Require OrderedTypeEx.
Import ListNotations.
Local Open Scope string_scope.
Local Open Scope Z_scope.

Set Implicit Arguments.
Set Warnings "-notation-for-abbreviation".

(** ** Python exceptions and call outcomes *)

(** The exception classes the constructor can raise, each with the
    payload Python gives it. *)
Inductive Exn : Type :=
| AttributeError (msg : string)
| ValueError (msg : string)
| KeyError (key : string)
| IndexError (msg : string)
| TypeError (msg : string).

(** Outcome of evaluating a Python expression.  [Unmodelled] marks a
    call that leaves the fragment of [str.format] embedded here
    (conversions, format specs, attribute and index access); nothing is
    stated about Python's behaviour there. *)
Inductive Outcome (A : Type) : Type :=
| Returns (a : A)
| Raises (e : Exn)
| Unmodelled.

Arguments Raises {A} e.
Arguments Unmodelled {A}.

Definition bind {A B : Type} (m : Outcome A) (k : A -> Outcome B) : Outcome B :=
  match m with
  | Returns a => k a
  | Raises e => Raises e
  | Unmodelled => Unmodelled
  end.

Notation "x <- m ;; k" := (bind m (fun x => k))
  (at level 61, m at next level, right associativity).

(** Python truthiness of a [str]: only the empty string is falsy. *)
Definition str_truthy (s : string) : bool :=
  match s with
  | EmptyString => false
  | String _ _ => true
  end.

(** [x or d] for an [Optional[str]] operand: [None] and [""] are both
    falsy and give the right operand. *)
Definition str_or (x : option string) (d : string) : string :=
  match x with
  | Some s => if str_truthy s then s else d
  | None => d
  end.

(** ** [str.format] with the keyword arguments [dialect] and [top_k] *)

Module PyFormat.

(** [str(k)] for a Python [int]. *)
Definition str_of_int (k : Z) : string :=
  NilZero.string_of_int (Z.to_int k).

Definition is_digit (c : ascii) : bool :=
  let n := nat_of_ascii c in (Nat.leb 48 n && Nat.leb n 57)%bool.

Fixpoint all_digits (s : string) : bool :=
  match s with
  | EmptyString => true
  | String c r => (is_digit c && all_digits r)%bool
  end.

(** Decimal value of a string of ASCII digits. *)
Definition digits_value (s : string) : Z :=
  (fix go (acc : Z) (s : string) : Z :=
     match s with
     | EmptyString => acc
     | String c r => go (10 * acc + (Z.of_nat (nat_of_ascii c) - 48)) r
     end) 0 s.

(** Characters that take a replacement field out of the embedded
    fragment: the start of a conversion, of a format spec, of an index
    or of an attribute access, and any non-ASCII byte (Python also
    reads Unicode decimal digits as positional indices). *)
Definition leaves_fragment (c : ascii) : bool :=
  (Ascii.eqb c "!" || Ascii.eqb c ":" || Ascii.eqb c "[" || Ascii.eqb c "."
   || Nat.leb 128 (nat_of_ascii c))%bool.

(** Value substituted for the replacement field [{name}] in
    [template.format(dialect=D, top_k=K)].  No positional argument is
    passed, so an empty name (automatic numbering) or a numeric one
    raises [IndexError]; any other unknown name raises [KeyError]. *)
Definition get_field (D : string) (K : Z) (name : string) : Outcome string :=
  if String.eqb name "dialect" then Returns D
  else if String.eqb name "top_k" then Returns (str_of_int K)
  else if all_digits name then
    if Nat.leb (String.length name) 18
    then Raises (IndexError ("Replacement index " ++ str_of_int (digits_value name)
                             ++ " out of range for positional args tuple"))
    else Unmodelled
  else Raises (KeyError name).

(** Scanner state: in literal text, just after an opening brace, inside
    a field name (characters read so far), or just after a closing
    brace in literal text. *)
Inductive Mode : Type :=
| Lit
| SawOpen
| InField (name : string)
| SawClose.

(** The markup scanner, one character at a time, left to right.
    Doubled braces are escapes for a single brace. *)
Fixpoint scan (D : string) (K : Z) (m : Mode) (s : string) : Outcome string :=
  match s with
  | EmptyString =>
      match m with
      | Lit => Returns EmptyString
      | SawOpen => Raises (ValueError "Single '{' encountered in format string")
      | InField _ => Raises (ValueError "expected '}' before end of string")
      | SawClose => Raises (ValueError "Single '}' encountered in format string")
      end
  | String c r =>
      match m with
      | Lit =>
          if Ascii.eqb c "{" then scan D K SawOpen r
          else if Ascii.eqb c "}" then scan D K SawClose r
          else out <- scan D K Lit r ;; Returns (String c out)
      | SawOpen =>
          if Ascii.eqb c "{" then out <- scan D K Lit r ;; Returns (String c out)
          else if Ascii.eqb c "}" then
            v <- get_field D K EmptyString ;;
            out <- scan D K Lit r ;; Returns (v ++ out)
          else if leaves_fragment c then Unmodelled
          else scan D K (InField (String c EmptyString)) r
      | InField name =>
          if Ascii.eqb c "}" then
            v <- get_field D K name ;;
            out <- scan D K Lit r ;; Returns (v ++ out)
          else if Ascii.eqb c "{" then Raises (ValueError "unexpected '{' in field name")
          else if leaves_fragment c then Unmodelled
          else scan D K (InField (name ++ String c EmptyString)) r
      | SawClose =>
          if Ascii.eqb c "}" then out <- scan D K Lit r ;; Returns (String c out)
          else Raises (ValueError "Single '}' encountered in format string")
      end
  end.

(** [template.format(dialect=D, top_k=K)]. *)
Definition format (template : string) (D : string) (K : Z) : Outcome string :=
  scan D K Lit template.

(** A string without brace characters. *)
Fixpoint brace_free (s : string) : bool :=
  match s with
  | EmptyString => true
  | String c r => (negb (Ascii.eqb c "{") && negb (Ascii.eqb c "}") && brace_free r)%bool
  end.

(** A template without a doubled brace, the escape for a literal
    brace. *)
Fixpoint no_escape (s : string) : bool :=
  match s with
  | EmptyString => true
  | String c r =>
      match r with
      | EmptyString => true
      | String c' _ =>
          (negb ((Ascii.eqb c "{" || Ascii.eqb c "}") && Ascii.eqb c c')
           && no_escape r)%bool
      end
  end.

(** The condition under which a scanner state, reached without having
    read an escape, has no escape ahead of it. *)
Definition no_escape_from (m : Mode) (s : string) : bool :=
  match m with
  | Lit | InField _ => no_escape s
  | SawOpen => no_escape (String "{" s)
  | SawClose => no_escape (String "}" s)
  end.

(** Whether every replacement field of a template without doubled
    braces is a bare name: between an opening brace and the next
    closing brace there is no character that starts a conversion, a
    format spec, an index or an attribute access, and no non-ASCII
    byte.  [in_field] tells whether the scan is between such braces. *)
Fixpoint bare_fields_from (in_field : bool) (s : string) : bool :=
  match s with
  | EmptyString => true
  | String c r =>
      if Ascii.eqb c "{" then bare_fields_from true r
      else if Ascii.eqb c "}" then bare_fields_from false r
      else (negb (in_field && leaves_fragment c) && bare_fields_from in_field r)%bool
  end.

Definition bare_fields (template : string) : bool :=
  bare_fields_from false template.

(** Whether a scanner state is between the braces of a field. *)
Definition in_field_of (m : Mode) : bool :=
  match m with
  | Lit | SawClose => false
  | SawOpen | InField _ => true
  end.

End PyFormat.

(** ** The [warnings] module *)

(** Public names of Python's standard [warnings] module.  The module has
    no attribute called [warning]. *)
Definition warnings_module : list string :=
  ["warn"; "warn_explicit"; "showwarning"; "formatwarning";
   "filterwarnings"; "simplefilter"; "resetwarnings"; "catch_warnings"].

(** The call [warnings.<name>(message)]: the attribute is looked up
    before the argument is evaluated, and a missing attribute raises.  A
    call that goes through issues the message and returns [None]. *)
Definition warnings_call (name : string) : Outcome unit :=
  if existsb (String.eqb name) warnings_module then Returns tt
  else Raises (AttributeError ("module 'warnings' has no attribute '" ++ name ++ "'")).

(** ** Names imported by [base.py] *)

(** What [base.py] imports from modules whose declarations are not part
    of the embedded sources: the opaque framework classes, the two
    members of the [str]-valued enumeration [AgentType] that the
    dispatcher compares with, the text an f-string renders for an agent
    type, and the prompt constants of
    [langchain_community.agent_toolkits.sql.prompt]. *)
Class Imports : Type := {
  BaseLanguageModel : Type;
  BaseTool : Type;
  BaseCallbackManager : Type;
  Any : Type;
  PyFloat : Type;
  ZERO_SHOT_REACT_DESCRIPTION : string;
  OPENAI_FUNCTIONS : string;
  agent_type_str : string -> string;
  SQL_PREFIX : string;
  SQL_SUFFIX : string;
  SQL_FUNCTIONS_SUFFIX : string
}.

(** A value passed as [agent_type]: a member of [AgentType] is a [str]
    and compares, and is truthy, as its string value. *)
Definition AgentType : Type := string.

(** A Python [dict] with string keys, in insertion order. *)
Definition Dict (V : Type) : Type := list (string * V).

Section DataModel.
Context {I : Imports}.

(** Modelled from the spec: the toolkit class [SQLDatabaseToolkit] of
    [toolkit.py], seen through the two members the constructor reads:
    the tool collection and the dialect name. *)
Record SQLDatabaseToolkit : Type := {
  get_tools : list BaseTool;
  dialect : string
}.

(** The message-like values put into the chat prompt, one constructor
    per class the source instantiates. *)
Inductive MessageLike : Type :=
| SystemMessage (content : string)
| HumanMessagePromptTemplate_from_template (template : string)
| AIMessage (content : string)
| MessagesPlaceholder (variable_name : string).

(** Modelled from the spec: the prompt objects of the framework, each
    recorded as the call that builds it with the arguments it
    receives. *)
Inductive Prompt : Type :=
| ZeroShotAgent_create_prompt
    (tools : list BaseTool) (prefix suffix : string)
    (input_variables : option (list string)) (prompt_params : Dict string)
| ChatPromptTemplate_from_messages (messages : list MessageLike).

(** Modelled from the spec: the runnables bound by the two framework
    factories, recorded with the model, tool list and prompt bound. *)
Inductive Runnable : Type :=
| create_react_agent (llm : BaseLanguageModel) (tools : list BaseTool) (prompt : Prompt)
| create_openai_functions_agent
    (llm : BaseLanguageModel) (tools : list BaseTool) (prompt : Prompt).

(** Modelled from the spec: [RunnableAgent(runnable=..., input_keys_arg=...)]. *)
Record RunnableAgent : Type := {
  runnable : Runnable;
  input_keys_arg : list string
}.

(** Modelled from the spec: the executable unit, holding the keyword
    arguments [AgentExecutor] is instantiated with; [ae_kwargs] are
    the additional executor overrides. *)
Record AgentExecutor : Type := {
  ae_agent : RunnableAgent;
  ae_tools : list BaseTool;
  ae_callback_manager : option BaseCallbackManager;
  ae_verbose : bool;
  ae_max_iterations : option Z;
  ae_max_execution_time : option PyFloat;
  ae_early_stopping_method : string;
  ae_kwargs : Dict Any
}.

(** Keywords the source passes to [AgentExecutor] by name. *)
Definition explicit_keywords : list string :=
  ["agent"; "tools"; "callback_manager"; "verbose"; "max_iterations";
   "max_execution_time"; "early_stopping_method"].

Definition is_explicit_keyword (kv : string * Any) : bool :=
  existsb (String.eqb (fst kv)) explicit_keywords.

(** The call [AgentExecutor(agent=..., ..., **overrides)].  A key of
    the unpacked dict that repeats a keyword given by name makes the
    call itself raise [TypeError]. *)
Definition AgentExecutor_call
    (agent : RunnableAgent) (tools : list BaseTool)
    (callback_manager : option BaseCallbackManager) (verbose : bool)
    (max_iterations : option Z) (max_execution_time : option PyFloat)
    (early_stopping_method : string) (overrides : Dict Any) : Outcome AgentExecutor :=
  match find is_explicit_keyword overrides with
  | Some kv =>
      Raises (TypeError ("langchain.agents.agent.AgentExecutor() got multiple values "
                         ++ "for keyword argument '" ++ fst kv ++ "'"))
  | None =>
      Returns {| ae_agent := agent;
                 ae_tools := tools;
                 ae_callback_manager := callback_manager;
                 ae_verbose := verbose;
                 ae_max_iterations := max_iterations;
                 ae_max_execution_time := max_execution_time;
                 ae_early_stopping_method := early_stopping_method;
                 ae_kwargs := overrides |}
  end.

(** [d or {}] for an [Optional[Dict]]. *)
Definition dict_or_empty (d : option (Dict Any)) : Dict Any :=
  match d with
  | Some kvs => kvs
  | None => []
  end.

(** The message of the [ValueError] raised for an agent type. *)
Definition not_supported (agent_type : AgentType) : string :=
  "Agent type " ++ agent_type_str agent_type ++ " not supported at the moment.".

(** ** [create_sql_agent] *)

(** Construct an SQL agent from an LLM and tools: the body of the
    source function, statement by statement, in the order Python
    evaluates it.  The imports at the head of the body are taken to
    succeed and [toolkit.get_tools()] to return its list. *)
Definition create_sql_agent
    (llm : BaseLanguageModel) (toolkit : SQLDatabaseToolkit)
    (agent_type : option AgentType)
    (callback_manager : option BaseCallbackManager)
    (prefix : string) (suffix : option string)
    (format_instructions : option string)
    (input_variables : option (list string))
    (top_k : Z) (max_iterations : option Z)
    (max_execution_time : option PyFloat)
    (early_stopping_method : string) (verbose : bool)
    (agent_executor_kwargs : option (Dict Any))
    (extra_tools : list BaseTool)
    (kwargs : Dict Any) : Outcome AgentExecutor :=
  _ <- match kwargs with
       | [] => Returns tt
       | _ :: _ => warnings_call "warning"
       end ;;
  let agent_type := str_or agent_type ZERO_SHOT_REACT_DESCRIPTION in
  let tools := (get_tools toolkit ++ extra_tools)%list in
  prefix <- PyFormat.format prefix (dialect toolkit) top_k ;;
  agent <-
    (if String.eqb agent_type ZERO_SHOT_REACT_DESCRIPTION then
       let prompt_params :=
         match format_instructions with
         | Some fi => [("format_instructions", fi)]
         | None => []
         end in
       let prompt :=
         ZeroShotAgent_create_prompt tools prefix (str_or suffix SQL_SUFFIX)
                                     input_variables prompt_params in
       Returns {| runnable := create_react_agent llm tools prompt;
                  input_keys_arg := ["input"] |}
     else if String.eqb agent_type OPENAI_FUNCTIONS then
       let messages :=
         [SystemMessage prefix;
          HumanMessagePromptTemplate_from_template "{input}";
          AIMessage (str_or suffix SQL_FUNCTIONS_SUFFIX);
          MessagesPlaceholder "agent_scratchpad"] in
       let prompt := ChatPromptTemplate_from_messages messages in
       Returns {| runnable := create_openai_functions_agent llm tools prompt;
                  input_keys_arg := ["input"] |}
     else Raises (ValueError (not_supported agent_type))) ;;
  AgentExecutor_call agent tools callback_manager verbose max_iterations
                     max_execution_time early_stopping_method
                     (dict_or_empty agent_executor_kwargs).

(** ** Observations on the constructed unit *)

(** The prompt a runnable was bound with. *)
Definition runnable_prompt (r : Runnable) : Prompt :=
  match r with
  | create_react_agent _ _ p => p
  | create_openai_functions_agent _ _ p => p
  end.

(** The tool list a runnable was bound with. *)
Definition runnable_tools (r : Runnable) : list BaseTool :=
  match r with
  | create_react_agent _ ts _ => ts
  | create_openai_functions_agent _ ts _ => ts
  end.

(** The tool list a prompt was built from; the chat prompt of the
    function-calling strategy is built from messages only. *)
Definition prompt_tools (p : Prompt) : option (list BaseTool) :=
  match p with
  | ZeroShotAgent_create_prompt ts _ _ _ _ => Some ts
  | ChatPromptTemplate_from_messages _ => None
  end.

(** The suffix text a prompt carries: the [suffix] argument of the
    zero-shot prompt, the content of the assistant message of the chat
    prompt. *)
Definition prompt_suffix (p : Prompt) : option string :=
  match p with
  | ZeroShotAgent_create_prompt _ _ sfx _ _ => Some sfx
  | ChatPromptTemplate_from_messages [_; _; AIMessage sfx; _] => Some sfx
  | ChatPromptTemplate_from_messages _ => None
  end.

Definition unit_prompt (u : AgentExecutor) : Prompt :=
  runnable_prompt (runnable (ae_agent u)).

(** ** The sections of the zero-shot prompt *)

Inductive PromptSection : Type :=
| PrefixSection (text : string)
| ToolListing (tools : list BaseTool)
| FormatInstructions (text : string)
| SuffixSection (text : string).

Fixpoint dict_get {V : Type} (k : string) (d : Dict V) : option V :=
  match d with
  | [] => None
  | (k', v) :: r => if String.eqb k k' then Some v else dict_get k r
  end.

(** Modelled from the spec: [ZeroShotAgent.create_prompt] of
    [langchain.agents.mrkl.base], which is not among the embedded
    sources.  The prompt consists of the interpolated prefix, the
    tool-listing section, a format-instructions block included only
    if the caller supplied one, and the suffix. *)
Definition create_prompt_sections
    (tools : list BaseTool) (prefix suffix : string)
    (prompt_params : Dict string) : list PromptSection :=
  ([PrefixSection prefix; ToolListing tools]
   ++ match dict_get "format_instructions" prompt_params with
      | Some fi => [FormatInstructions fi]
      | None => []
      end
   ++ [SuffixSection suffix])%list.

Definition prompt_sections (p : Prompt) : list PromptSection :=
  match p with
  | ZeroShotAgent_create_prompt ts pre sfx _ params =>
      create_prompt_sections ts pre sfx params
  | ChatPromptTemplate_from_messages _ => []
  end.

Definition is_format_instructions (s : PromptSection) : bool :=
  match s with
  | FormatInstructions _ => true
  | _ => false
  end.

End DataModel.

(** The agent types the dispatcher has a branch for. *)
Definition supported_agent_type {I : Imports} (a : AgentType) : Prop :=
  a = ZERO_SHOT_REACT_DESCRIPTION \/ a = OPENAI_FUNCTIONS.

(** Whether a call gets past the statements that precede and follow the
    dispatch: no extra keyword argument, a prefix template that
    interpolates, and no executor override that repeats a keyword. *)
Definition construction_proceeds {I : Imports}
    (toolkit : SQLDatabaseToolkit) (prefix : string) (top_k : Z)
    (agent_executor_kwargs : option (Dict Any)) (kwargs : Dict Any) : bool :=
  match kwargs, PyFormat.format prefix (dialect toolkit) top_k,
        find is_explicit_keyword (dict_or_empty agent_executor_kwargs) with
  | [], Returns _, None => true
  | _, _, _ => false
  end.

(** ** A concrete environment *)

(** One instance of the imported names, with tools and models named by
    strings. *)
Definition example_imports : Imports := {|
  BaseLanguageModel := string;
  BaseTool := string;
  BaseCallbackManager := unit;
  Any := Z;
  PyFloat := Z;
  ZERO_SHOT_REACT_DESCRIPTION := "zero-shot-react-description";
  OPENAI_FUNCTIONS := "openai-functions";
  agent_type_str := fun s => s;
  SQL_PREFIX := "Create a syntactically correct {dialect} query; limit it to {top_k} results.";
  SQL_SUFFIX := "Begin! Question: {input} {agent_scratchpad}";
  SQL_FUNCTIONS_SUFFIX := "I should look at the tables in the database."
|}.

Definition example_toolkit : @SQLDatabaseToolkit example_imports :=
  @Build_SQLDatabaseToolkit example_imports ["sql_db_query"; "sql_db_schema"] "sqlite".

(** [create_sql_agent(llm, toolkit, agent_type, prefix=..., suffix=...,
    format_instructions=..., extra_tools=..., **kwargs)] with every
    other parameter at its default. *)
Definition example_call
    (agent_type : option AgentType) (prefix : string) (suffix : option string)
    (format_instructions : option string) (extra_tools : list string)
    (kwargs : Dict Z) : Outcome (@AgentExecutor example_imports) :=
  @create_sql_agent example_imports "llm" example_toolkit agent_type None
                    prefix suffix format_instructions None 10 (Some 15) None
                    "force" false None extra_tools kwargs.
(** ** Dictionaries *)

(** [d[k] = v]: the value of an existing key is replaced in place, a new
    key is added last. *)
Fixpoint dict_set {V : Type} (k : string) (v : V) (d : Dict V) : Dict V :=
  match d with
  | [] => [(k, v)]
  | (k', v') :: r =>
      if String.eqb k k' then (k, v) :: r else (k', v') :: dict_set k v r
  end.

(** [{**d, **e}]: the items of [e] are set into [d] one after the
    other. *)
Definition dict_merge {V : Type} (d e : Dict V) : Dict V :=
  fold_left (fun acc kv => dict_set (fst kv) (snd kv) acc) e d.

Definition dict_keys {V : Type} (d : Dict V) : list string := map fst d.

Definition dict_has {V : Type} (k : string) (d : Dict V) : bool :=
  existsb (String.eqb k) (dict_keys d).

(** ** The NLPCloud wrapper, [llms/nlpcloud.py] *)

Module NLPCloudLLM.

Section Wrapper.
Variable Float : Type.

(** The values the parameter dictionaries hold: the field types of the
    class. *)
Inductive Value : Type :=
| VFloat (x : Float)
| VInt (n : Z)
| VBool (b : bool)
| VStr (s : string)
| VStrList (l : list string).

(** The fields of an [NLPCloud] instance.  [client] is the [generation]
    method of the client object: it receives the prompt, the
    [end_sequence] keyword and the remaining keywords, and returns the
    response dictionary or raises. *)
Record NLPCloud : Type := {
  client : string -> option string -> Dict Value -> Outcome (Dict Value);
  model_name : string;
  gpu : bool;
  lang : string;
  temperature : Float;
  max_length : Z;
  length_no_input : bool;
  remove_input : bool;
  remove_end_sequence : bool;
  bad_words : list string;
  top_p : Float;
  top_k : Z;
  repetition_penalty : Float;
  num_beams : Z;
  num_return_sequences : Z
}.

(** Get the default parameters for calling NLPCloud API. *)
Definition _default_params (self : NLPCloud) : Dict Value :=
  [("temperature", VFloat (temperature self));
   ("max_length", VInt (max_length self));
   ("length_no_input", VBool (length_no_input self));
   ("remove_input", VBool (remove_input self));
   ("remove_end_sequence", VBool (remove_end_sequence self));
   ("bad_words", VStrList (bad_words self));
   ("top_p", VFloat (top_p self));
   ("top_k", VInt (top_k self));
   ("repetition_penalty", VFloat (repetition_penalty self));
   ("num_beams", VInt (num_beams self));
   ("num_return_sequences", VInt (num_return_sequences self))].

(** Get the identifying parameters. *)
Definition _identifying_params (self : NLPCloud) : Dict Value :=
  dict_merge
    (dict_merge
       (dict_merge (dict_merge [] [("model_name", VStr (model_name self))])
                   [("gpu", VBool (gpu self))])
       [("lang", VStr (lang self))])
    (_default_params self).

(** Return type of llm. *)
Definition _llm_type (self : NLPCloud) : string := "nlpcloud".

(** The call [self.client.generation(prompt, end_sequence=end_sequence,
    **params)]: a key [end_sequence] among the unpacked keywords
    repeats the keyword given by name, and the call itself raises. *)
Definition generation_call (self : NLPCloud) (prompt : string)
    (end_sequence : option string) (params : Dict Value) : Outcome (Dict Value) :=
  if dict_has "end_sequence" params
  then Raises (TypeError ("nlpcloud.Client.generation() got multiple values "
                          ++ "for keyword argument 'end_sequence'"))
  else client self prompt end_sequence params.

(** [response["generated_text"]]. *)
Definition generated_text (response : Dict Value) : Outcome Value :=
  match dict_get "generated_text" response with
  | Some v => Returns v
  | None => Raises (KeyError "generated_text")
  end.

(** Call out to NLPCloud's create endpoint. *)
Definition _call (self : NLPCloud) (prompt : string)
    (stop : option (list string)) (kwargs : Dict Value) : Outcome Value :=
  end_sequence <-
    match stop with
    | Some (_ :: _ :: _) =>
        Raises (ValueError ("NLPCloud only supports a single stop sequence per generation."
                            ++ "Pass in a list of length 1."))
    | Some [s] => Returns (Some s)
    | Some [] | None => Returns None
    end ;;
  let params := dict_merge (_default_params self) kwargs in
  response <- generation_call self prompt end_sequence params ;;
  generated_text response.

End Wrapper.

Arguments VInt {Float} n.
Arguments VBool {Float} b.
Arguments VStr {Float} s.
Arguments VStrList {Float} l.

End NLPCloudLLM.

(** ** The environment report, [langchain_core/sys_info.py] *)

Module SysInfo.

(** What a lookup in the import machinery or the package metadata comes
    to: a value, [None], or an exception (which the source catches). *)
Inductive Lookup (A : Type) : Type :=
| Found (a : A)
| Missing
| Failed.

Arguments Missing {A}.
Arguments Failed {A}.

(** The environment [print_sys_info] reads: the names yielded by
    [pkgutil.iter_modules()], the three strings of [platform] and
    [sys], [importlib.util.find_spec] and
    [importlib.metadata.version]. *)
Record Env : Type := {
  iter_modules : list string;
  platform_system : string;
  platform_version : string;
  sys_version : string;
  find_spec : string -> Lookup unit;
  metadata_version : string -> Lookup string
}.

(** Packages that do not start with "langchain" prefix. *)
Definition other_langchain_packages : list string := ["langserve"; "langgraph"].

(** Always surface these packages to the top. *)
Definition order_by : list string :=
  ["langchain_core"; "langchain"; "langchain_community"].

(** [set(l)]: the distinct elements. *)
Definition py_set (l : list string) : list string := nodup string_dec l.

Fixpoint insert_sorted (x : string) (l : list string) : list string :=
  match l with
  | [] => [x]
  | y :: r => if String.leb x y then x :: y :: r else y :: insert_sorted x r
  end.

(** [sorted(l)] on strings: ascending in the order of [str]. *)
Definition py_sorted (l : list string) : list string :=
  fold_right insert_sorted [] l.

(** [pkg in l]. *)
Definition py_in (pkg : string) (l : list string) : bool :=
  existsb (String.eqb pkg) l.

(** [l.remove(pkg)]: the first occurrence goes. *)
Fixpoint py_remove (pkg : string) (l : list string) : list string :=
  match l with
  | [] => []
  | y :: r => if String.eqb pkg y then r else y :: py_remove pkg r
  end.

(** The package list before the surfacing loop. *)
Definition discovered_packages (env : Env) (additional_pkgs : list string)
  : list string :=
  let langchain_pkgs :=
    filter (fun name => String.prefix "langchain" name) (iter_modules env) in
  py_sorted (py_set (langchain_pkgs ++ other_langchain_packages ++ additional_pkgs)%list).

(** One turn of the surfacing loop. *)
Definition surface (all_packages : list string) (pkg : string) : list string :=
  if py_in pkg all_packages
  then pkg :: py_remove pkg all_packages
  else all_packages.

(** The package list after the surfacing loop over
    [reversed(order_by)]. *)
Definition all_packages (env : Env) (additional_pkgs : list string) : list string :=
  fold_left surface (List.rev order_by) (discovered_packages env additional_pkgs).

(** Whether [found_package] is not [None] for a package. *)
Definition is_found (env : Env) (pkg : string) : bool :=
  match find_spec env pkg with
  | Found _ => true
  | Missing | Failed => false
  end.

(** The line printed for a package that was found. *)
Definition package_line (env : Env) (pkg : string) : string :=
  match metadata_version env pkg with
  | Found package_version => "> " ++ pkg ++ ": " ++ package_version
  | Missing | Failed => "> " ++ pkg ++ ": Installed. No version info available."
  end.

(** One turn of the reporting loop, on the lines printed so far and the
    [not_installed] list. *)
Definition report_package (env : Env) (st : list string * list string) (pkg : string)
  : list string * list string :=
  let (printed, not_installed) := st in
  if is_found env pkg
  then ((printed ++ [package_line env pkg])%list, not_installed)
  else (printed, (not_installed ++ [pkg])%list).

(** The lines printed before the reporting loop. *)
Definition header (env : Env) : list string :=
  [""; "System Information"; "------------------";
   "> OS: " ++ " " ++ platform_system env;
   "> OS Version: " ++ " " ++ platform_version env;
   "> Python Version: " ++ " " ++ sys_version env;
   ""; "Package Information"; "-------------------"].

(** The lines of the closing section. *)
Definition not_installed_section (not_installed : list string) : list string :=
  match not_installed with
  | [] => []
  | _ :: _ =>
      ([""; "Packages not installed (Not Necessarily a Problem)";
        "--------------------------------------------------";
        "The following packages were not found:"; ""]
       ++ map (fun pkg => ("> " ++ pkg)%string) not_installed)%list
  end.

(** Print information about the environment for debugging purposes: the
    arguments of the [print] calls, one string per call, in order. *)
Definition print_sys_info (env : Env) (additional_pkgs : list string) : list string :=
  let (printed, not_installed) :=
    fold_left (report_package env) (all_packages env additional_pkgs)
              (header env, []) in
  (printed ++ not_installed_section not_installed)%list.

End SysInfo.

(** ** Concrete instances of the wrapper and of the environment *)

(** A wrapper whose client echoes the prompt and the end sequence it is
    called with. *)
Definition example_nlpcloud : NLPCloudLLM.NLPCloud Z :=
  {| NLPCloudLLM.client := fun prompt end_sequence params =>
       Returns [("generated_text",
                 NLPCloudLLM.VStr (prompt ++ str_or end_sequence "<none>"));
                ("nb_params", NLPCloudLLM.VInt (Z.of_nat (List.length params)))];
     NLPCloudLLM.model_name := "finetuned-gpt-neox-20b";
     NLPCloudLLM.gpu := true;
     NLPCloudLLM.lang := "en";
     NLPCloudLLM.temperature := 7;
     NLPCloudLLM.max_length := 256;
     NLPCloudLLM.length_no_input := true;
     NLPCloudLLM.remove_input := true;
     NLPCloudLLM.remove_end_sequence := true;
     NLPCloudLLM.bad_words := [];
     NLPCloudLLM.top_p := 10;
     NLPCloudLLM.top_k := 50;
     NLPCloudLLM.repetition_penalty := 10;
     NLPCloudLLM.num_beams := 1;
     NLPCloudLLM.num_return_sequences := 1 |}.

(** An environment with four langchain modules among others; the lookup
    of one package comes back empty and that of another raises. *)
Definition example_env : SysInfo.Env :=
  {| SysInfo.iter_modules :=
       ["os"; "langchain_openai"; "numpy"; "langchain_community"; "langchain";
        "langchain_core"; "langchainhub"];
     SysInfo.platform_system := "Linux";
     SysInfo.platform_version := "#1 SMP";
     SysInfo.sys_version := "3.11.2 (main)";
     SysInfo.find_spec := fun pkg =>
       if String.eqb pkg "langserve" then SysInfo.Missing
       else if String.eqb pkg "langgraph" then SysInfo.Failed
       else SysInfo.Found tt;
     SysInfo.metadata_version := fun pkg =>
       if String.eqb pkg "langchain_core" then SysInfo.Found "0.1.7"
       else if String.eqb pkg "langchain" then SysInfo.Found "0.1.0"
       else if String.eqb pkg "langchainhub" then SysInfo.Missing
       else SysInfo.Failed |}.

Example format_fields :
  PyFormat.format "a {dialect} query, at most {top_k} rows" "sqlite" 10
  = Returns "a sqlite query, at most 10 rows".
Proof. reflexivity. Qed.

Example format_escapes :
  PyFormat.format "{{dialect}} -> {dialect}" "sqlite" (-3) = Returns "{dialect} -> sqlite".
Proof. reflexivity. Qed.

Example format_unknown_key :
  PyFormat.format "{dialect} {table}" "sqlite" 10 = Raises (KeyError "table").
Proof. reflexivity. Qed.

Example format_single_brace :
  PyFormat.format "limit }" "sqlite" 10
  = Raises (ValueError "Single '}' encountered in format string").
Proof. reflexivity. Qed.

Example format_positional :
  PyFormat.format "{01} rows" "sqlite" 10
  = Raises (IndexError "Replacement index 1 out of range for positional args tuple").
Proof. reflexivity. Qed.

Example format_spec_unmodelled :
  PyFormat.format "{top_k:>5}" "sqlite" 10 = Unmodelled.
Proof. reflexivity. Qed.

Example default_call :
  example_call None (@SQL_PREFIX example_imports) None None ["list_tables"] []
  = Returns
      {| ae_agent :=
           {| runnable :=
                create_react_agent (I := example_imports) "llm"
                  ["sql_db_query"; "sql_db_schema"; "list_tables"]
                  (ZeroShotAgent_create_prompt (I := example_imports)
                     ["sql_db_query"; "sql_db_schema"; "list_tables"]
                     "Create a syntactically correct sqlite query; limit it to 10 results."
                     "Begin! Question: {input} {agent_scratchpad}" None []);
              input_keys_arg := ["input"] |};
         ae_tools := ["sql_db_query"; "sql_db_schema"; "list_tables"];
         ae_callback_manager := None;
         ae_verbose := false;
         ae_max_iterations := Some 15;
         ae_max_execution_time := None;
         ae_early_stopping_method := "force";
         ae_kwargs := [] |}.
Proof. reflexivity. Qed.

(** ** Facts about outcomes and interpolation *)

Lemma bind_Returns (A B : Type) (m : Outcome A) (k : A -> Outcome B) (b : B) :
  bind m k = Returns b -> exists a, m = Returns a /\ k a = Returns b.
Proof.
  destruct m as [a | e | ]; simpl; intros H; try discriminate.
  exists a; split; [reflexivity | exact H].
Qed.

Lemma bind_Raises (A B : Type) (m : Outcome A) (k : A -> Outcome B) (e : Exn) :
  bind m k = Raises e ->
  m = Raises e \/ exists a, m = Returns a /\ k a = Raises e.
Proof.
  destruct m as [a | e' | ]; simpl; intros H; try discriminate.
  - right; exists a; split; [reflexivity | exact H].
  - left; inversion H; reflexivity.
Qed.

Lemma str_or_truthy (s d : string) :
  str_truthy s = true -> str_or (Some s) d = s.
Proof. intros H; unfold str_or; rewrite H; reflexivity. Qed.

Lemma str_or_empty (d : string) : str_or (Some "") d = str_or None d.
Proof. reflexivity. Qed.

Section FormatFacts.
Variables (D : string) (K : Z).

(** Text without braces is copied unchanged. *)
Lemma scan_brace_free (s : string) :
  PyFormat.brace_free s = true -> PyFormat.scan D K PyFormat.Lit s = Returns s.
Proof.
  induction s as [| c r IH]; simpl; intros H.
  - reflexivity.
  - apply andb_true_iff in H as [H Hr].
    apply andb_true_iff in H as [Ho Hc].
    apply negb_true_iff in Ho, Hc.
    rewrite Ho, Hc, (IH Hr); reflexivity.
Qed.

Lemma get_field_no_ValueError (name msg : string) :
  PyFormat.get_field D K name <> Raises (ValueError msg).
Proof.
  unfold PyFormat.get_field.
  destruct (name =? "dialect")%string; [discriminate |].
  destruct (name =? "top_k")%string; [discriminate |].
  destruct (PyFormat.all_digits name); [| discriminate].
  destruct (Nat.leb _ _); discriminate.
Qed.

(** The only [ValueError]s of interpolation are the three complaints
    of the markup scanner. *)
Lemma scan_ValueError (s : string) :
  forall (m : PyFormat.Mode) (msg : string),
    PyFormat.scan D K m s = Raises (ValueError msg) ->
    In msg ["Single '{' encountered in format string";
            "Single '}' encountered in format string";
            "expected '}' before end of string";
            "unexpected '{' in field name"].
Proof.
  induction s as [| c r IH]; intros m msg H.
  - destruct m; simpl in H; inversion H; subst; simpl; auto.
  - destruct m; simpl in H.
    + destruct (Ascii.eqb c "{"); [eauto |].
      destruct (Ascii.eqb c "}"); [eauto |].
      apply bind_Raises in H as [H | (a & _ & H)]; [eauto | discriminate].
    + destruct (Ascii.eqb c "{").
      { apply bind_Raises in H as [H | (a & _ & H)]; [eauto | discriminate]. }
      destruct (Ascii.eqb c "}"); [discriminate |].
      destruct (PyFormat.leaves_fragment c); [discriminate | eauto].
    + destruct (Ascii.eqb c "}").
      { apply bind_Raises in H as [H | (v & _ & H)].
        - exfalso; exact (get_field_no_ValueError _ H).
        - apply bind_Raises in H as [H | (a & _ & H)]; [eauto | discriminate]. }
      destruct (Ascii.eqb c "{").
      { inversion H; subst; simpl; auto. }
      destruct (PyFormat.leaves_fragment c); [discriminate | eauto].
    + destruct (Ascii.eqb c "}").
      { apply bind_Raises in H as [H | (a & _ & H)]; [eauto | discriminate]. }
      inversion H; subst; simpl; auto.
Qed.

Lemma brace_free_app (s t : string) :
  PyFormat.brace_free (s ++ t)
  = (PyFormat.brace_free s && PyFormat.brace_free t)%bool.
Proof.
  induction s as [| c r IH]; simpl; [reflexivity |].
  rewrite IH, andb_assoc; reflexivity.
Qed.

Lemma brace_free_uint (d : uint) :
  PyFormat.brace_free (NilEmpty.string_of_uint d) = true.
Proof. induction d; simpl; auto. Qed.

Lemma brace_free_str_of_int : PyFormat.brace_free (PyFormat.str_of_int K) = true.
Proof.
  unfold PyFormat.str_of_int, NilZero.string_of_int, NilZero.string_of_uint.
  destruct (Z.to_int K) as [d | d]; destruct d; simpl;
    try reflexivity; apply brace_free_uint.
Qed.

Lemma get_field_brace_free (name v : string) :
  PyFormat.brace_free D = true ->
  PyFormat.get_field D K name = Returns v ->
  PyFormat.brace_free v = true.
Proof.
  unfold PyFormat.get_field; intros HD.
  destruct (name =? "dialect")%string; [intros [= <-]; exact HD |].
  destruct (name =? "top_k")%string;
    [intros [= <-]; apply brace_free_str_of_int |].
  destruct (PyFormat.all_digits name); [| discriminate].
  destruct (Nat.leb _ _); discriminate.
Qed.

Lemma no_escape_tail (c : ascii) (s : string) :
  PyFormat.no_escape (String c s) = true -> PyFormat.no_escape s = true.
Proof.
  destruct s as [| c' r]; [reflexivity |].
  intros H; change (PyFormat.no_escape (String c (String c' r)))
    with ((negb ((Ascii.eqb c "{" || Ascii.eqb c "}") && Ascii.eqb c c')
           && PyFormat.no_escape (String c' r))%bool) in H.
  apply andb_true_iff in H as [_ H]; exact H.
Qed.

Lemma no_escape_doubled (c : ascii) (s : string) :
  (Ascii.eqb c "{" || Ascii.eqb c "}")%bool = true ->
  PyFormat.no_escape (String c (String c s)) = false.
Proof.
  intros Hc.
  change (PyFormat.no_escape (String c (String c s)))
    with ((negb ((Ascii.eqb c "{" || Ascii.eqb c "}") && Ascii.eqb c c)
           && PyFormat.no_escape (String c s))%bool).
  rewrite Hc, Ascii.eqb_refl; reflexivity.
Qed.

(** Without escapes in the template and braces in the dialect name, no
    brace reaches the interpolated text. *)
Lemma scan_no_escape (s : string) :
  PyFormat.brace_free D = true ->
  forall (m : PyFormat.Mode) (r : string),
    PyFormat.no_escape_from m s = true ->
    PyFormat.scan D K m s = Returns r ->
    PyFormat.brace_free r = true.
Proof.
  intros HD; induction s as [| c t IH]; intros m r Hm H.
  - destruct m; simpl in H; try discriminate.
    injection H as <-; reflexivity.
  - destruct m; simpl in H; unfold PyFormat.no_escape_from in Hm.
    + destruct (Ascii.eqb c "{") eqn:Ho.
      { apply Ascii.eqb_eq in Ho; subst c. apply (IH PyFormat.SawOpen); assumption. }
      destruct (Ascii.eqb c "}") eqn:Hc.
      { apply Ascii.eqb_eq in Hc; subst c. apply (IH PyFormat.SawClose); assumption. }
      apply bind_Returns in H as (out & Hout & [= <-]).
      simpl; rewrite Ho, Hc; simpl.
      apply (IH PyFormat.Lit); [| exact Hout].
      exact (no_escape_tail _ _ Hm).
    + destruct (Ascii.eqb c "{") eqn:Ho.
      { apply Ascii.eqb_eq in Ho; subst c.
        rewrite no_escape_doubled in Hm; [discriminate | reflexivity]. }
      destruct (Ascii.eqb c "}"); [discriminate |].
      destruct (PyFormat.leaves_fragment c); [discriminate |].
      apply (IH (PyFormat.InField (String c EmptyString))); [| exact H].
      exact (no_escape_tail _ _ (no_escape_tail _ _ Hm)).
    + destruct (Ascii.eqb c "}").
      { apply bind_Returns in H as (v & Hv & H).
        apply bind_Returns in H as (out & Hout & [= <-]).
        rewrite brace_free_app, (get_field_brace_free _ HD Hv); simpl.
        apply (IH PyFormat.Lit); [| exact Hout].
        exact (no_escape_tail _ _ Hm). }
      destruct (Ascii.eqb c "{"); [discriminate |].
      destruct (PyFormat.leaves_fragment c); [discriminate |].
      apply (IH (PyFormat.InField (name ++ String c EmptyString))); [| exact H].
      exact (no_escape_tail _ _ Hm).
    + destruct (Ascii.eqb c "}") eqn:Hc; [| discriminate].
      apply Ascii.eqb_eq in Hc; subst c.
      rewrite no_escape_doubled in Hm; [discriminate | reflexivity].
Qed.

End FormatFacts.

(** ** The constructor, case by case *)

Section Construction.
Context {I : Imports}.
Variables (llm : BaseLanguageModel) (toolkit : SQLDatabaseToolkit)
          (callback_manager : option BaseCallbackManager)
          (prefix : string) (input_variables : option (list string))
          (top_k : Z) (max_iterations : option Z)
          (max_execution_time : option PyFloat)
          (early_stopping_method : string) (verbose : bool)
          (agent_executor_kwargs : option (Dict Any))
          (extra_tools : list BaseTool).

Local Notation build a sfx fi kw :=
  (create_sql_agent llm toolkit a callback_manager prefix sfx fi
                    input_variables top_k max_iterations max_execution_time
                    early_stopping_method verbose agent_executor_kwargs
                    extra_tools kw).
Local Notation bound_tools := (get_tools toolkit ++ extra_tools)%list.
Local Notation interpolated := (PyFormat.format prefix (dialect toolkit) top_k).
Local Notation unit_of r :=
  {| ae_agent := {| runnable := r; input_keys_arg := ["input"] |};
     ae_tools := bound_tools;
     ae_callback_manager := callback_manager;
     ae_verbose := verbose;
     ae_max_iterations := max_iterations;
     ae_max_execution_time := max_execution_time;
     ae_early_stopping_method := early_stopping_method;
     ae_kwargs := dict_or_empty agent_executor_kwargs |}.
Local Notation zero_shot_runnable p sfx fi :=
  (create_react_agent llm bound_tools
     (ZeroShotAgent_create_prompt bound_tools p (str_or sfx SQL_SUFFIX)
        input_variables
        match fi with
        | Some t => [("format_instructions", t)]
        | None => []
        end)).
Local Notation functions_runnable p sfx :=
  (create_openai_functions_agent llm bound_tools
     (ChatPromptTemplate_from_messages
        [SystemMessage p;
         HumanMessagePromptTemplate_from_template "{input}";
         AIMessage (str_or sfx SQL_FUNCTIONS_SUFFIX);
         MessagesPlaceholder "agent_scratchpad"])).

(** C2 (what the code does instead): every call with at least one
    extra keyword argument stops at the warning statement, which looks
    up [warnings.warning], and raises [AttributeError]; no warning is
    issued and no unit is returned. *)
Theorem C2_extra_kwargs_raise a sfx fi kv kw :
  create_sql_agent llm toolkit a callback_manager prefix sfx fi
                   input_variables top_k max_iterations max_execution_time
                   early_stopping_method verbose agent_executor_kwargs
                   extra_tools (kv :: kw)
  = Raises (AttributeError "module 'warnings' has no attribute 'warning'").
Proof. reflexivity. Qed.

(** What a returned unit looks like, and what the call went through
    to return it. *)
Lemma create_sql_agent_inv a sfx fi kw u :
  build a sfx fi kw = Returns u ->
  kw = [] /\
  find is_explicit_keyword (dict_or_empty agent_executor_kwargs) = None /\
  exists p, interpolated = Returns p /\
    ((str_or a ZERO_SHOT_REACT_DESCRIPTION =? ZERO_SHOT_REACT_DESCRIPTION)%string = true
     /\ u = unit_of (zero_shot_runnable p sfx fi)
     \/
     (str_or a ZERO_SHOT_REACT_DESCRIPTION =? ZERO_SHOT_REACT_DESCRIPTION)%string = false
     /\ (str_or a ZERO_SHOT_REACT_DESCRIPTION =? OPENAI_FUNCTIONS)%string = true
     /\ u = unit_of (functions_runnable p sfx)).
Proof.
  unfold create_sql_agent; intros H.
  destruct kw as [| kv kw]; [| discriminate].
  simpl in H.
  apply bind_Returns in H as (p & Hp & H).
  apply bind_Returns in H as (ag & Hag & H).
  unfold AgentExecutor_call in H.
  destruct (find _ _) eqn:Hfind; [discriminate |].
  injection H as <-.
  split; [reflexivity |]. split; [reflexivity |].
  exists p; split; [exact Hp |].
  destruct (_ =? ZERO_SHOT_REACT_DESCRIPTION)%string eqn:Hz.
  - left; injection Hag as <-; auto.
  - destruct (_ =? OPENAI_FUNCTIONS)%string eqn:Ho; [| discriminate].
    right; injection Hag as <-; auto.
Qed.

(** A call that gets past the surrounding statements returns whatever
    the dispatch builds. *)
Lemma create_sql_agent_zero_shot a sfx fi p :
  construction_proceeds toolkit prefix top_k agent_executor_kwargs [] = true ->
  interpolated = Returns p ->
  (str_or a ZERO_SHOT_REACT_DESCRIPTION =? ZERO_SHOT_REACT_DESCRIPTION)%string = true ->
  build a sfx fi [] = Returns (unit_of (zero_shot_runnable p sfx fi)).
Proof.
  unfold construction_proceeds, create_sql_agent; intros Hc Hp Hz.
  rewrite Hp in *; simpl.
  rewrite Hz; simpl.
  unfold AgentExecutor_call.
  destruct (find _ _); [discriminate | reflexivity].
Qed.

Lemma create_sql_agent_functions a sfx fi p :
  construction_proceeds toolkit prefix top_k agent_executor_kwargs [] = true ->
  interpolated = Returns p ->
  (str_or a ZERO_SHOT_REACT_DESCRIPTION =? ZERO_SHOT_REACT_DESCRIPTION)%string = false ->
  (str_or a ZERO_SHOT_REACT_DESCRIPTION =? OPENAI_FUNCTIONS)%string = true ->
  build a sfx fi [] = Returns (unit_of (functions_runnable p sfx)).
Proof.
  unfold construction_proceeds, create_sql_agent; intros Hc Hp Hz Ho.
  rewrite Hp in *; simpl.
  rewrite Hz, Ho; simpl.
  unfold AgentExecutor_call.
  destruct (find _ _); [discriminate | reflexivity].
Qed.

Lemma construction_proceeds_inv kw :
  construction_proceeds toolkit prefix top_k agent_executor_kwargs kw = true ->
  kw = [] /\ exists p, interpolated = Returns p.
Proof.
  unfold construction_proceeds.
  destruct kw; [| discriminate].
  destruct interpolated as [p | |]; try discriminate.
  intros _; split; [reflexivity | exists p; reflexivity].
Qed.

(** The dispatch on a supported agent type takes one of its two
    branches. *)
Lemma supported_dispatch (a : AgentType) :
  supported_agent_type a ->
  (str_or (Some a) ZERO_SHOT_REACT_DESCRIPTION =? ZERO_SHOT_REACT_DESCRIPTION)%string = true
  \/ (str_or (Some a) ZERO_SHOT_REACT_DESCRIPTION =? ZERO_SHOT_REACT_DESCRIPTION)%string = false
     /\ (str_or (Some a) ZERO_SHOT_REACT_DESCRIPTION =? OPENAI_FUNCTIONS)%string = true.
Proof.
  intros Hs; unfold str_or.
  destruct (_ =? ZERO_SHOT_REACT_DESCRIPTION)%string eqn:Hz; [left; reflexivity |].
  right; split; [reflexivity |].
  destruct (str_truthy a).
  - destruct Hs as [-> | ->].
    + rewrite String.eqb_refl in Hz; discriminate.
    + apply String.eqb_refl.
  - rewrite String.eqb_refl in Hz; discriminate.
Qed.

Lemma supported_returns (a : AgentType) sfx fi kw :
  supported_agent_type a ->
  construction_proceeds toolkit prefix top_k agent_executor_kwargs kw = true ->
  exists u, build (Some a) sfx fi kw = Returns u.
Proof.
  intros Hs Hc.
  destruct (construction_proceeds_inv _ Hc) as (-> & p & Hp).
  destruct (supported_dispatch Hs) as [Hz | [Hz Ho]].
  - eexists; apply create_sql_agent_zero_shot; eassumption.
  - eexists; apply create_sql_agent_functions; eassumption.
Qed.

(** ** The properties of the dispatcher *)

(** C1 (as amended): for every unsupported agent type that is truthy (a
    non-empty string, as every member of [AgentType] is), the call
    returns no executable unit; when in addition no extra keyword
    argument is passed and the prefix template interpolates, the call
    raises [ValueError] with the message
    "Agent type <type> not supported at the moment.", which names the
    type. *)
Theorem C1_unsupported_agent_type (a : AgentType) sfx fi kw :
  str_truthy a = true ->
  a <> ZERO_SHOT_REACT_DESCRIPTION ->
  a <> OPENAI_FUNCTIONS ->
  (forall u, build (Some a) sfx fi kw <> Returns u) /\
  (kw = [] ->
   forall p, interpolated = Returns p ->
     build (Some a) sfx fi kw
     = Raises (ValueError ("Agent type " ++ agent_type_str a
                           ++ " not supported at the moment."))).
Proof.
  intros Ht Hz Ho.
  assert (Hnz : (a =? ZERO_SHOT_REACT_DESCRIPTION)%string = false)
    by (apply String.eqb_neq; exact Hz).
  assert (Hno : (a =? OPENAI_FUNCTIONS)%string = false)
    by (apply String.eqb_neq; exact Ho).
  split.
  - intros u H.
    apply create_sql_agent_inv in H as (_ & _ & p & _ & H).
    rewrite (str_or_truthy _ _ Ht) in H.
    destruct H as [[H _] | (_ & H & _)]; congruence.
  - intros -> p Hp.
    unfold create_sql_agent.
    rewrite (str_or_truthy _ _ Ht), Hp; simpl.
    rewrite Hnz, Hno.
    reflexivity.
Qed.

(** C3: for every supported agent type and every pair of tool lists,
    the tool list bound into the returned unit is the toolkit's tools
    followed by the extra tools, in that order; and a call that gets
    past the surrounding statements does return such a unit. *)
Theorem C3_bound_tools (a : AgentType) sfx fi kw :
  supported_agent_type a ->
  (forall u, build (Some a) sfx fi kw = Returns u ->
     ae_tools u = (get_tools toolkit ++ extra_tools)%list) /\
  (construction_proceeds toolkit prefix top_k agent_executor_kwargs kw = true ->
   exists u, build (Some a) sfx fi kw = Returns u
             /\ ae_tools u = (get_tools toolkit ++ extra_tools)%list).
Proof.
  intros Hs.
  assert (Hpart : forall u, build (Some a) sfx fi kw = Returns u ->
                    ae_tools u = bound_tools).
  { intros u H.
    apply create_sql_agent_inv in H as (_ & _ & p & _ & [[_ ->] | (_ & _ & ->)]);
      reflexivity. }
  split; [exact Hpart |].
  intros Hc.
  destruct (supported_returns sfx fi _ Hs Hc) as [u Hu].
  exists u; split; [exact Hu | exact (Hpart u Hu)].
Qed.

(** C4: in every call, the tool list the runnable agent is bound with,
    and the tool list the prompt is built from (the zero-shot prompt;
    the chat prompt is built from messages alone), is the tool list
    wrapped into the final unit. *)
Theorem C4_one_tool_list a sfx fi kw u :
  build a sfx fi kw = Returns u ->
  runnable_tools (runnable (ae_agent u)) = ae_tools u /\
  (forall ts, prompt_tools (unit_prompt u) = Some ts -> ts = ae_tools u) /\
  ((str_or a ZERO_SHOT_REACT_DESCRIPTION =? ZERO_SHOT_REACT_DESCRIPTION)%string = true ->
   prompt_tools (unit_prompt u) = Some (ae_tools u)).
Proof.
  intros H.
  apply create_sql_agent_inv in H as (_ & _ & p & _ & [[Hz ->] | (Hz & _ & ->)]);
    unfold unit_prompt; simpl.
  - split; [reflexivity |].
    split; [intros ts Hts; congruence | reflexivity].
  - split; [reflexivity |].
    split; [intros ts Hts; discriminate | intros Hz'; congruence].
Qed.

(** C5: in every zero-shot call, without a [format_instructions]
    override the prompt has no format-instructions section, and with
    one the prompt has a format-instructions section holding the
    supplied text verbatim; a call that gets past the surrounding
    statements does return such a unit. *)
Theorem C5_format_instructions_section a sfx fi kw :
  a = None \/ a = Some ZERO_SHOT_REACT_DESCRIPTION ->
  (forall u, build a sfx fi kw = Returns u ->
     match fi with
     | None =>
         existsb is_format_instructions (prompt_sections (unit_prompt u)) = false
     | Some text =>
         In (FormatInstructions text) (prompt_sections (unit_prompt u))
     end) /\
  (construction_proceeds toolkit prefix top_k agent_executor_kwargs kw = true ->
   exists u, build a sfx fi kw = Returns u).
Proof.
  intros Ha.
  assert (Hz : (str_or a ZERO_SHOT_REACT_DESCRIPTION
                =? ZERO_SHOT_REACT_DESCRIPTION)%string = true).
  { destruct Ha as [-> | ->]; unfold str_or;
      [| destruct (str_truthy _)]; apply String.eqb_refl. }
  split.
  - intros u H.
    apply create_sql_agent_inv in H as (_ & _ & p & _ & [[_ ->] | (Hz' & _)]);
      [| congruence].
    unfold unit_prompt; destruct fi as [text |]; simpl; auto.
  - intros Hc.
    destruct (construction_proceeds_inv _ Hc) as (-> & p & Hp).
    eexists; apply create_sql_agent_zero_shot; eassumption.
Qed.

(** C6: with no [suffix] override each strategy uses its own built-in
    default suffix exactly: [SQL_SUFFIX] in the zero-shot prompt,
    [SQL_FUNCTIONS_SUFFIX] in the function-calling prompt.  The two
    enumeration members are distinct and the function-calling one is a
    non-empty string. *)
Theorem C6_default_suffixes fi kw :
  str_truthy OPENAI_FUNCTIONS = true ->
  ZERO_SHOT_REACT_DESCRIPTION <> OPENAI_FUNCTIONS ->
  (forall u, build (Some ZERO_SHOT_REACT_DESCRIPTION) None fi kw = Returns u ->
     prompt_suffix (unit_prompt u) = Some SQL_SUFFIX) /\
  (forall u, build (Some OPENAI_FUNCTIONS) None fi kw = Returns u ->
     prompt_suffix (unit_prompt u) = Some SQL_FUNCTIONS_SUFFIX) /\
  (construction_proceeds toolkit prefix top_k agent_executor_kwargs kw = true ->
   (exists u, build (Some ZERO_SHOT_REACT_DESCRIPTION) None fi kw = Returns u) /\
   (exists u, build (Some OPENAI_FUNCTIONS) None fi kw = Returns u)).
Proof.
  intros Ht Hd.
  assert (Hzz : (str_or (Some ZERO_SHOT_REACT_DESCRIPTION) ZERO_SHOT_REACT_DESCRIPTION
                 =? ZERO_SHOT_REACT_DESCRIPTION)%string = true).
  { unfold str_or; destruct (str_truthy ZERO_SHOT_REACT_DESCRIPTION);
      apply String.eqb_refl. }
  assert (Hoz : (OPENAI_FUNCTIONS =? ZERO_SHOT_REACT_DESCRIPTION)%string = false).
  { apply String.eqb_neq; congruence. }
  repeat split.
  - intros u H.
    apply create_sql_agent_inv in H as (_ & _ & p & _ & [[_ ->] | (Hz' & _)]);
      [reflexivity | congruence].
  - intros u H.
    apply create_sql_agent_inv in H as (_ & _ & p & _ & H).
    rewrite (str_or_truthy _ _ Ht) in H.
    destruct H as [[Hz' _] | (_ & _ & ->)]; [congruence | reflexivity].
  - apply supported_returns; [left; reflexivity | assumption].
  - apply supported_returns; [right; reflexivity | assumption].
Qed.

(** C8: in every call with the function-calling strategy the prompt is
    the sequence of four messages, in order: a system message holding
    the interpolated prefix, the placeholder of the user's input, an
    assistant message holding the suffix ([suffix or
    SQL_FUNCTIONS_SUFFIX]: the override, the built-in default when it
    is absent or empty), and the placeholder of the scratchpad; a call
    that gets past the surrounding statements does return such a
    unit. *)
Theorem C8_function_calling_prompt sfx fi kw :
  str_truthy OPENAI_FUNCTIONS = true ->
  ZERO_SHOT_REACT_DESCRIPTION <> OPENAI_FUNCTIONS ->
  (forall u, build (Some OPENAI_FUNCTIONS) sfx fi kw = Returns u ->
     exists p, interpolated = Returns p /\
       unit_prompt u
       = ChatPromptTemplate_from_messages
           [SystemMessage p;
            HumanMessagePromptTemplate_from_template "{input}";
            AIMessage match sfx with
                      | Some s => if str_truthy s then s else SQL_FUNCTIONS_SUFFIX
                      | None => SQL_FUNCTIONS_SUFFIX
                      end;
            MessagesPlaceholder "agent_scratchpad"]) /\
  (construction_proceeds toolkit prefix top_k agent_executor_kwargs kw = true ->
   exists u, build (Some OPENAI_FUNCTIONS) sfx fi kw = Returns u).
Proof.
  intros Ht Hd.
  assert (Hoz : (OPENAI_FUNCTIONS =? ZERO_SHOT_REACT_DESCRIPTION)%string = false).
  { apply String.eqb_neq; congruence. }
  split.
  - intros u H.
    apply create_sql_agent_inv in H as (_ & _ & p & Hp & H).
    rewrite (str_or_truthy _ _ Ht) in H.
    destruct H as [[Hz' _] | (_ & _ & ->)]; [congruence |].
    exists p; split; [exact Hp | reflexivity].
  - apply supported_returns; right; reflexivity.
Qed.

(** C9: a call with [agent_type] omitted behaves as the explicit
    zero-shot call with the same remaining arguments (it returns the
    same unit, or raises the same exception), and it never raises the
    unsupported-type error. *)
Theorem C9_omitted_agent_type sfx fi kw :
  create_sql_agent llm toolkit None callback_manager prefix sfx fi
                   input_variables top_k max_iterations max_execution_time
                   early_stopping_method verbose agent_executor_kwargs
                   extra_tools kw
  = create_sql_agent llm toolkit (Some ZERO_SHOT_REACT_DESCRIPTION) callback_manager prefix sfx fi
                     input_variables top_k max_iterations max_execution_time
                     early_stopping_method verbose agent_executor_kwargs
                     extra_tools kw /\
  forall x : AgentType,
    build None sfx fi kw <> Raises (ValueError (not_supported x)).
Proof.
  split.
  - unfold create_sql_agent, str_or.
    destruct (str_truthy ZERO_SHOT_REACT_DESCRIPTION); reflexivity.
  - intros x H.
    unfold create_sql_agent in H.
    destruct kw; [| discriminate].
    simpl in H.
    apply bind_Raises in H as [H | (p & _ & H)].
    + apply scan_ValueError in H.
      unfold not_supported in H; simpl in H.
      repeat (destruct H as [H | H]; [discriminate |]).
      exact H.
    + rewrite String.eqb_refl in H; simpl in H.
      unfold AgentExecutor_call in H.
      destruct (find _ _); discriminate.
Qed.

(** C10: an empty-string [suffix] is treated exactly like no [suffix]:
    for every agent type, hence for both strategies, the two calls have
    the same outcome, and so the same prompt with the strategy's
    built-in default suffix. *)
Theorem C10_empty_suffix_is_no_suffix a fi kw :
  create_sql_agent llm toolkit a callback_manager prefix (Some "") fi
                   input_variables top_k max_iterations max_execution_time
                   early_stopping_method verbose agent_executor_kwargs
                   extra_tools kw
  = create_sql_agent llm toolkit a callback_manager prefix None fi
                     input_variables top_k max_iterations max_execution_time
                     early_stopping_method verbose agent_executor_kwargs
                     extra_tools kw.
Proof. reflexivity. Qed.

End Construction.

(** Within the embedded fragment a template without doubled braces
    interpolates only if its fields are bare names. *)
Lemma scan_bare_fields (D : string) (K : Z) (s : string) :
  forall (m : PyFormat.Mode) (r : string),
    PyFormat.no_escape_from m s = true ->
    PyFormat.scan D K m s = Returns r ->
    PyFormat.bare_fields_from (PyFormat.in_field_of m) s = true.
Proof.
  induction s as [| c t IH]; intros m r Hm H; [reflexivity |].
  destruct m; simpl in H |- *; unfold PyFormat.no_escape_from in Hm.
  - destruct (Ascii.eqb c "{") eqn:Ho.
    { apply Ascii.eqb_eq in Ho; subst c.
      apply (IH PyFormat.SawOpen r); assumption. }
    destruct (Ascii.eqb c "}") eqn:Hc.
    { apply Ascii.eqb_eq in Hc; subst c.
      apply (IH PyFormat.SawClose r); assumption. }
    apply bind_Returns in H as (out & Hout & _).
    apply (IH PyFormat.Lit out); [| exact Hout].
    exact (no_escape_tail _ _ Hm).
  - destruct (Ascii.eqb c "{") eqn:Ho.
    { apply Ascii.eqb_eq in Ho; subst c.
      rewrite no_escape_doubled in Hm; [discriminate | reflexivity]. }
    destruct (Ascii.eqb c "}"); [discriminate |].
    destruct (PyFormat.leaves_fragment c); [discriminate |].
    apply (IH (PyFormat.InField (String c EmptyString)) r); [| exact H].
    exact (no_escape_tail _ _ (no_escape_tail _ _ Hm)).
  - destruct (Ascii.eqb c "}") eqn:Hc.
    { apply Ascii.eqb_eq in Hc; subst c; simpl.
      apply bind_Returns in H as (v & _ & H).
      apply bind_Returns in H as (out & Hout & _).
      apply (IH PyFormat.Lit out); [| exact Hout].
      exact (no_escape_tail _ _ Hm). }
    destruct (Ascii.eqb c "{"); [discriminate |].
    destruct (PyFormat.leaves_fragment c); [discriminate |].
    apply (IH (PyFormat.InField (name ++ String c EmptyString)) r); [| exact H].
    exact (no_escape_tail _ _ Hm).
  - destruct (Ascii.eqb c "}") eqn:Hc; [| discriminate].
    apply Ascii.eqb_eq in Hc; subst c.
    rewrite no_escape_doubled in Hm; [discriminate | reflexivity].
Qed.

(** C7 (as amended): for every prefix template without a doubled brace
    whose replacement fields are bare names (no conversion, format
    spec, index or attribute access, and no non-ASCII character,
    between the braces), every dialect name without a brace, and every
    row limit, when interpolation returns a text, interpolating that
    text again with the same dialect and row limit returns the
    identical text. *)
Theorem C7_reinterpolation (template D : string) (K : Z) (r : string) :
  PyFormat.no_escape template = true ->
  PyFormat.bare_fields template = true ->
  PyFormat.brace_free D = true ->
  PyFormat.format template D K = Returns r ->
  PyFormat.format r D K = Returns r.
Proof.
  intros Ht _ HD H.
  apply scan_brace_free.
  eapply scan_no_escape with (m := PyFormat.Lit); eassumption.
Qed.

Lemma C7_reinterpolation_witness :
  PyFormat.format "Create a sqlite query; at most 10 results." "sqlite" 10
  = Returns "Create a sqlite query; at most 10 results.".
Proof.
  apply (@C7_reinterpolation
           "Create a {dialect} query; at most {top_k} results." "sqlite" 10);
    reflexivity.
Defined.

(** C7 as stated fails: an escaped field survives the first
    interpolation as a field and is replaced by the second; so does a
    field inside the dialect name. *)
Lemma C7_counterexample :
  (PyFormat.format "{{dialect}}" "sqlite" 10 = Returns "{dialect}"
   /\ PyFormat.format "{dialect}" "sqlite" 10 = Returns "sqlite")
  /\ (PyFormat.format "{dialect}" "{top_k}" 10 = Returns "{top_k}"
      /\ PyFormat.format "{top_k}" "{top_k}" 10 = Returns "10").
Proof. repeat split; reflexivity. Qed.

(** ** The properties at the concrete environment *)

Example extra_kwargs_call :
  example_call None (@SQL_PREFIX example_imports) None None []
               [("handle_parsing_errors", 1)]
  = Raises (AttributeError "module 'warnings' has no attribute 'warning'")
  /\ exists u,
       example_call None (@SQL_PREFIX example_imports) None None [] [] = Returns u.
Proof. split; [reflexivity | eexists; reflexivity]. Qed.

(** C1 as stated fails twice over.  The empty string is neither
    supported type nor [None], yet [agent_type or ...] replaces it by
    the zero-shot default and a unit is returned; and with an
    unsupported type and a prefix template naming an unknown field, the
    interpolation raises [KeyError] before the dispatch is reached, so
    the error does not name the agent type. *)
Lemma C1_counterexample :
  ("" <> @ZERO_SHOT_REACT_DESCRIPTION example_imports
   /\ "" <> @OPENAI_FUNCTIONS example_imports
   /\ exists u,
        example_call (Some "") (@SQL_PREFIX example_imports) None None [] []
        = Returns u)
  /\ ("bogus" <> @ZERO_SHOT_REACT_DESCRIPTION example_imports
      /\ "bogus" <> @OPENAI_FUNCTIONS example_imports
      /\ example_call (Some "bogus") "{dialect} rows of {table}" None None [] []
         = Raises (KeyError "table")).
Proof.
  repeat split; try (intros E; discriminate E); try reflexivity.
  eexists; reflexivity.
Qed.

Lemma C1_unsupported_agent_type_witness :
  example_call (Some "chat-zero-shot-react-description")
               (@SQL_PREFIX example_imports) None None [] []
  = Raises (ValueError
      "Agent type chat-zero-shot-react-description not supported at the moment.").
Proof.
  destruct (@C1_unsupported_agent_type example_imports "llm" example_toolkit None
              (@SQL_PREFIX example_imports) None 10 (Some 15) None "force" false
              None [] "chat-zero-shot-react-description" None None [])
    as [_ H].
  - reflexivity.
  - intros E; discriminate E.
  - intros E; discriminate E.
  - exact (H eq_refl
             "Create a syntactically correct sqlite query; limit it to 10 results."
             eq_refl).
Defined.

Lemma C3_bound_tools_witness :
  exists u,
    example_call (Some "openai-functions") (@SQL_PREFIX example_imports)
                 None None ["list_tables"] [] = Returns u
    /\ ae_tools u = ["sql_db_query"; "sql_db_schema"; "list_tables"].
Proof.
  destruct (@C3_bound_tools example_imports "llm" example_toolkit None
              (@SQL_PREFIX example_imports) None 10 (Some 15) None "force" false
              None ["list_tables"] "openai-functions" None None [])
    as [_ H].
  - right; reflexivity.
  - exact (H eq_refl).
Defined.

Lemma C4_one_tool_list_witness :
  exists u,
    example_call None (@SQL_PREFIX example_imports) None None ["list_tables"] []
    = Returns u
    /\ runnable_tools (runnable (ae_agent u)) = ae_tools u
    /\ prompt_tools (unit_prompt u) = Some (ae_tools u).
Proof.
  eexists; split; [reflexivity |].
  destruct (@C4_one_tool_list example_imports "llm" example_toolkit None
              (@SQL_PREFIX example_imports) None 10 (Some 15) None "force" false
              None ["list_tables"] None None None [] _ eq_refl)
    as (Hr & _ & Hp).
  split; [exact Hr | exact (Hp eq_refl)].
Defined.

Lemma C5_format_instructions_section_witness :
  exists u,
    example_call (Some "zero-shot-react-description") (@SQL_PREFIX example_imports)
                 None (Some "Answer in one line.") [] [] = Returns u
    /\ In (FormatInstructions "Answer in one line.")
          (prompt_sections (unit_prompt u)).
Proof.
  eexists; split; [reflexivity |].
  destruct (@C5_format_instructions_section example_imports "llm" example_toolkit
              None (@SQL_PREFIX example_imports) None 10 (Some 15) None "force"
              false None [] (Some "zero-shot-react-description") None
              (Some "Answer in one line.") [] (or_intror eq_refl))
    as [H _].
  exact (H _ eq_refl).
Defined.

Lemma C6_default_suffixes_witness :
  (exists u,
     example_call (Some "zero-shot-react-description") (@SQL_PREFIX example_imports)
                  None None [] [] = Returns u
     /\ prompt_suffix (unit_prompt u) = Some (@SQL_SUFFIX example_imports))
  /\ (exists u,
        example_call (Some "openai-functions") (@SQL_PREFIX example_imports)
                     None None [] [] = Returns u
        /\ prompt_suffix (unit_prompt u)
           = Some (@SQL_FUNCTIONS_SUFFIX example_imports)).
Proof.
  destruct (@C6_default_suffixes example_imports "llm" example_toolkit None
              (@SQL_PREFIX example_imports) None 10 (Some 15) None "force" false
              None [] None [])
    as (Hz & Ho & _).
  - reflexivity.
  - intros E; discriminate E.
  - split; eexists; (split; [reflexivity |]).
    + exact (Hz _ eq_refl).
    + exact (Ho _ eq_refl).
Defined.

Lemma C8_function_calling_prompt_witness :
  exists u,
    example_call (Some "openai-functions") (@SQL_PREFIX example_imports)
                 (Some "Let me look at the schema first.") None [] [] = Returns u
    /\ unit_prompt u
       = ChatPromptTemplate_from_messages
           [SystemMessage
              "Create a syntactically correct sqlite query; limit it to 10 results.";
            HumanMessagePromptTemplate_from_template "{input}";
            AIMessage "Let me look at the schema first.";
            MessagesPlaceholder "agent_scratchpad"].
Proof.
  eexists; split; [reflexivity |].
  destruct (@C8_function_calling_prompt example_imports "llm" example_toolkit None
              (@SQL_PREFIX example_imports) None 10 (Some 15) None "force" false
              None [] (Some "Let me look at the schema first.") None [])
    as [H _].
  - reflexivity.
  - intros E; discriminate E.
  - destruct (H _ eq_refl) as (p & Hp & Hu).
    injection Hp as <-.
    exact Hu.
Defined.

(** ** Dictionaries: lookup after update *)

Section DictFacts.
Variable V : Type.
Implicit Types (d e : Dict V) (k : string) (v : V).

Lemma dict_get_absent k d :
  ~ In k (dict_keys d) -> dict_get k d = None.
Proof.
  induction d as [| [k' v'] r IH]; simpl; intros Hk; [reflexivity |].
  destruct (String.eqb_spec k k') as [-> | Hne].
  - exfalso; apply Hk; left; reflexivity.
  - apply IH; intros Hin; apply Hk; right; exact Hin.
Qed.

Lemma dict_get_set_same k v d : dict_get k (dict_set k v d) = Some v.
Proof.
  induction d as [| [k' v'] r IH]; simpl.
  - rewrite String.eqb_refl; reflexivity.
  - destruct (String.eqb_spec k k') as [-> | Hne]; simpl.
    + rewrite String.eqb_refl; reflexivity.
    + destruct (String.eqb_spec k k'); [contradiction | exact IH].
Qed.

Lemma dict_get_set_other k k' v d :
  k <> k' -> dict_get k (dict_set k' v d) = dict_get k d.
Proof.
  intros Hne; induction d as [| [k'' v''] r IH]; simpl.
  - destruct (String.eqb_spec k k'); [contradiction | reflexivity].
  - destruct (String.eqb_spec k' k'') as [<- | Hne']; simpl.
    + destruct (String.eqb_spec k k'); [contradiction | reflexivity].
    + destruct (String.eqb_spec k k''); [reflexivity | exact IH].
Qed.

Lemma dict_has_get k d : dict_has k d = true <-> dict_get k d <> None.
Proof.
  unfold dict_has, dict_keys.
  induction d as [| [k' v'] r IH]; simpl.
  - split; [discriminate | intros H; contradiction H; reflexivity].
  - destruct (String.eqb_spec k k'); simpl; [| exact IH].
    split; [discriminate | reflexivity].
Qed.

(** Lookup in [{**d, **e}]: the value of [e] when [e] has the key, the
    value of [d] otherwise. *)
Lemma dict_get_merge k d e :
  NoDup (dict_keys e) ->
  dict_get k (dict_merge d e)
  = match dict_get k e with
    | Some v => Some v
    | None => dict_get k d
    end.
Proof.
  unfold dict_merge; intros Hnd; revert d.
  induction e as [| [k1 v1] r IH]; intros d; simpl; [reflexivity |].
  simpl in Hnd; apply NoDup_cons_iff in Hnd as [Hk1 Hr].
  rewrite (IH Hr).
  destruct (String.eqb_spec k k1) as [-> | Hne].
  - rewrite dict_get_absent by exact Hk1.
    rewrite dict_get_set_same; reflexivity.
  - rewrite dict_get_set_other by exact Hne; reflexivity.
Qed.

Lemma dict_keys_set k v d :
  dict_keys (dict_set k v d)
  = if dict_has k d then dict_keys d else (dict_keys d ++ [k])%list.
Proof.
  unfold dict_has, dict_keys.
  induction d as [| [k' v'] r IH]; simpl; [reflexivity |].
  destruct (String.eqb_spec k k') as [-> | Hne]; simpl; [reflexivity |].
  rewrite IH; destruct (existsb _ _); reflexivity.
Qed.

Lemma dict_has_set k k1 v d :
  dict_has k (dict_set k1 v d) = ((k =? k1)%string || dict_has k d)%bool.
Proof.
  unfold dict_has, dict_keys.
  induction d as [| [k' v'] r IH]; simpl.
  - reflexivity.
  - destruct (String.eqb_spec k1 k') as [<- | Hne]; simpl.
    + destruct (k =? k1)%string; reflexivity.
    + rewrite IH.
      destruct (k =? k')%string, (k =? k1)%string; reflexivity.
Qed.

Lemma dict_has_merge k d e :
  dict_has k (dict_merge d e) = (dict_has k d || dict_has k e)%bool.
Proof.
  unfold dict_merge; revert d.
  induction e as [| [k1 v1] r IH]; intros d; simpl.
  - rewrite orb_false_r; reflexivity.
  - rewrite IH, dict_has_set.
    change (dict_has k ((k1, v1) :: r))
      with ((k =? k1)%string || dict_has k r)%bool.
    destruct (k =? k1)%string, (dict_has k d), (dict_has k r); reflexivity.
Qed.

End DictFacts.

Example example_report :
  SysInfo.print_sys_info example_env ["numpy"; "langchain"]
  = [""; "System Information"; "------------------";
     "> OS:  Linux"; "> OS Version:  #1 SMP"; "> Python Version:  3.11.2 (main)";
     ""; "Package Information"; "-------------------";
     "> langchain_core: 0.1.7";
     "> langchain: 0.1.0";
     "> langchain_community: Installed. No version info available.";
     "> langchain_openai: Installed. No version info available.";
     "> langchainhub: Installed. No version info available.";
     "> numpy: Installed. No version info available.";
     ""; "Packages not installed (Not Necessarily a Problem)";
     "--------------------------------------------------";
     "The following packages were not found:"; "";
     "> langgraph"; "> langserve"].
Proof. reflexivity. Qed.

Example example_generation :
  NLPCloudLLM._call example_nlpcloud "Tell me a joke." (Some ["###"])
                    [("top_k", NLPCloudLLM.VInt 10)]
  = Returns (NLPCloudLLM.VStr "Tell me a joke.###").
Proof. reflexivity. Qed.

(** ** The NLPCloud wrapper *)

Section NLPCloudFacts.
Variable Float : Type.
Variables (self : NLPCloudLLM.NLPCloud Float) (prompt : string).

Lemma default_params_keys :
  dict_keys (NLPCloudLLM._default_params self)
  = ["temperature"; "max_length"; "length_no_input"; "remove_input";
     "remove_end_sequence"; "bad_words"; "top_p"; "top_k";
     "repetition_penalty"; "num_beams"; "num_return_sequences"].
Proof. reflexivity. Qed.

Lemma default_params_NoDup : NoDup (dict_keys (NLPCloudLLM._default_params self)).
Proof.
  rewrite default_params_keys.
  repeat (constructor; [simpl; intuition discriminate |]).
  constructor.
Qed.

(** X7: the identifying parameters are the model name, the GPU flag and
    the language followed by the eleven default parameters, fourteen
    distinct keys in that order, and every default parameter is found
    there with its default value. *)
Theorem identifying_params_extend_defaults :
  dict_keys (NLPCloudLLM._identifying_params self)
  = ("model_name" :: "gpu" :: "lang"
     :: dict_keys (NLPCloudLLM._default_params self))%list
  /\ dict_get "model_name" (NLPCloudLLM._identifying_params self)
     = Some (NLPCloudLLM.VStr (NLPCloudLLM.model_name self))
  /\ dict_get "gpu" (NLPCloudLLM._identifying_params self)
     = Some (NLPCloudLLM.VBool (NLPCloudLLM.gpu self))
  /\ dict_get "lang" (NLPCloudLLM._identifying_params self)
     = Some (NLPCloudLLM.VStr (NLPCloudLLM.lang self))
  /\ forall k v,
       dict_get k (NLPCloudLLM._default_params self) = Some v ->
       dict_get k (NLPCloudLLM._identifying_params self) = Some v.
Proof.
  repeat split; try reflexivity.
  intros k v Hk.
  unfold NLPCloudLLM._identifying_params.
  rewrite dict_get_merge by apply default_params_NoDup.
  rewrite Hk; reflexivity.
Qed.

(** X8: a call with more than one stop sequence raises [ValueError],
    whatever the client, the prompt and the keyword arguments are. *)
Theorem call_rejects_several_stops (stop : list string) (kwargs : Dict (NLPCloudLLM.Value Float)) :
  (1 < List.length stop)%nat ->
  NLPCloudLLM._call self prompt (Some stop) kwargs
  = Raises (ValueError ("NLPCloud only supports a single stop sequence per generation."
                        ++ "Pass in a list of length 1.")).
Proof.
  destruct stop as [| s1 [| s2 r]]; simpl; intros H; try lia.
  reflexivity.
Qed.

(** X9: with at most one stop sequence and keyword arguments that do
    not name [end_sequence], the client is called with the prompt, the
    stop sequence (or [None]) as end sequence, and parameters in which
    every keyword argument is found with its value and every other
    default parameter with its default; the result is the generated
    text of the client's response. *)
Theorem call_merges_kwargs (stop : option (list string))
    (kwargs : Dict (NLPCloudLLM.Value Float)) :
  NoDup (dict_keys kwargs) ->
  dict_has "end_sequence" kwargs = false ->
  (List.length (match stop with Some l => l | None => [] end) <= 1)%nat ->
  exists params,
    NLPCloudLLM._call self prompt stop kwargs
    = (response <- NLPCloudLLM.client self prompt
                     (match stop with Some (s :: _) => Some s | _ => None end)
                     params ;;
       NLPCloudLLM.generated_text response)
    /\ forall k,
         dict_get k params
         = match dict_get k kwargs with
           | Some v => Some v
           | None => dict_get k (NLPCloudLLM._default_params self)
           end.
Proof.
  intros Hnd Hes Hlen.
  exists (dict_merge (NLPCloudLLM._default_params self) kwargs).
  split; [| intros k; apply dict_get_merge; exact Hnd].
  assert (Hno : dict_has "end_sequence"
                  (dict_merge (NLPCloudLLM._default_params self) kwargs) = false).
  { rewrite dict_has_merge, Hes; reflexivity. }
  unfold NLPCloudLLM._call, NLPCloudLLM.generation_call.
  destruct stop as [[| s [| s' r]] |]; simpl in Hlen; try lia;
    cbn [bind]; rewrite Hno; reflexivity.
Qed.

(** X10: keyword arguments that name [end_sequence] make the call raise
    [TypeError] whenever it gets past the check of the stop sequences:
    the end sequence can only be given through [stop]. *)
Theorem call_rejects_end_sequence_kwarg (stop : option (list string))
    (kwargs : Dict (NLPCloudLLM.Value Float)) :
  dict_has "end_sequence" kwargs = true ->
  (List.length (match stop with Some l => l | None => [] end) <= 1)%nat ->
  exists msg, NLPCloudLLM._call self prompt stop kwargs = Raises (TypeError msg).
Proof.
  intros Hes Hlen.
  assert (Hyes : dict_has "end_sequence"
                   (dict_merge (NLPCloudLLM._default_params self) kwargs) = true).
  { rewrite dict_has_merge, Hes; apply orb_true_r. }
  unfold NLPCloudLLM._call, NLPCloudLLM.generation_call.
  destruct stop as [[| s [| s' r]] |]; simpl in Hlen; try lia;
    cbn [bind]; rewrite Hyes; eexists; reflexivity.
Qed.

End NLPCloudFacts.

Lemma call_rejects_several_stops_witness :
  NLPCloudLLM._call example_nlpcloud "Tell me a joke." (Some ["###"; "END"]) []
  = Raises (ValueError ("NLPCloud only supports a single stop sequence per generation."
                        ++ "Pass in a list of length 1.")).
Proof.
  apply (@call_rejects_several_stops Z example_nlpcloud "Tell me a joke."
           ["###"; "END"] []).
  simpl; lia.
Defined.

Lemma call_merges_kwargs_witness :
  exists params : Dict (NLPCloudLLM.Value Z),
    NLPCloudLLM._call example_nlpcloud "Tell me a joke." (Some ["###"])
                      [("top_k", NLPCloudLLM.VInt 10); ("seed", NLPCloudLLM.VInt 3)]
    = Returns (NLPCloudLLM.VStr "Tell me a joke.###")
    /\ dict_get "top_k" params = Some (NLPCloudLLM.VInt 10)
    /\ dict_get "max_length" params = Some (NLPCloudLLM.VInt 256).
Proof.
  destruct (@call_merges_kwargs Z example_nlpcloud "Tell me a joke." (Some ["###"])
              [("top_k", NLPCloudLLM.VInt 10); ("seed", NLPCloudLLM.VInt 3)])
    as (params & Hcall & Hget).
  - repeat (constructor; [simpl; intuition discriminate |]); constructor.
  - reflexivity.
  - simpl; lia.
  - exists params; split; [| split].
    + reflexivity.
    + rewrite Hget; reflexivity.
    + rewrite Hget; reflexivity.
Defined.

Lemma call_rejects_end_sequence_kwarg_witness :
  exists msg,
    NLPCloudLLM._call example_nlpcloud "Tell me a joke." None
                      [("end_sequence", NLPCloudLLM.VStr (Float := Z) "###")]
    = Raises (TypeError msg).
Proof.
  apply (@call_rejects_end_sequence_kwarg Z example_nlpcloud "Tell me a joke." None
           [("end_sequence", NLPCloudLLM.VStr "###")]).
  - reflexivity.
  - simpl; lia.
Defined.

(** ** The order of strings *)

Lemma string_compare_refl (s : string) : String.compare s s = Eq.
Proof.
  pose proof (String.compare_antisym s s) as H.
  destruct (String.compare s s); simpl in H; congruence.
Qed.

Lemma string_leb_refl (s : string) : String.leb s s = true.
Proof. unfold String.leb; rewrite string_compare_refl; reflexivity. Qed.

Lemma string_leb_trans (a b c : string) :
  String.leb a b = true -> String.leb b c = true -> String.leb a c = true.
Proof.
  unfold String.leb.
  destruct (String.compare a b) eqn:Hab; try discriminate; intros _.
  - apply String.compare_eq_iff in Hab; subst b; trivial.
  - destruct (String.compare b c) eqn:Hbc; try discriminate; intros _.
    + apply String.compare_eq_iff in Hbc; subst c; rewrite Hab; reflexivity.
    + apply OrderedTypeEx.String_as_OT.cmp_lt in Hab, Hbc.
      pose proof (OrderedTypeEx.String_as_OT.lt_trans _ _ _ Hab Hbc) as Hac.
      apply OrderedTypeEx.String_as_OT.cmp_lt in Hac.
      unfold OrderedTypeEx.String_as_OT.cmp in Hac; rewrite Hac; reflexivity.
Qed.

Lemma string_ltb_leb (a b : string) :
  String.leb a b = true -> a <> b -> String.ltb a b = true.
Proof.
  unfold String.leb, String.ltb.
  destruct (String.compare a b) eqn:Hab; try discriminate; intros _ Hne.
  - apply String.compare_eq_iff in Hab; contradiction.
  - reflexivity.
Qed.

Lemma string_ltb_trans (a b c : string) :
  String.ltb a b = true -> String.ltb b c = true -> String.ltb a c = true.
Proof.
  unfold String.ltb.
  destruct (String.compare a b) eqn:Hab; try discriminate; intros _.
  destruct (String.compare b c) eqn:Hbc; try discriminate; intros _.
  apply OrderedTypeEx.String_as_OT.cmp_lt in Hab, Hbc.
  pose proof (OrderedTypeEx.String_as_OT.lt_trans _ _ _ Hab Hbc) as Hac.
  apply OrderedTypeEx.String_as_OT.cmp_lt in Hac.
  unfold OrderedTypeEx.String_as_OT.cmp in Hac; rewrite Hac; reflexivity.
Qed.

(** ** Sorting and the surfacing loop *)

Section SortFacts.
Import SysInfo.

Local Notation le := (fun a b : string => String.leb a b = true).
Local Notation lt := (fun a b : string => String.ltb a b = true).

Lemma insert_sorted_In (x y : string) (l : list string) :
  In y (insert_sorted x l) <-> y = x \/ In y l.
Proof.
  induction l as [| z r IH]; simpl.
  - intuition.
  - destruct (String.leb x z); simpl; [intuition |].
    rewrite IH; intuition.
Qed.

Lemma insert_sorted_sorted (x : string) (l : list string) :
  StronglySorted le l -> StronglySorted le (insert_sorted x l).
Proof.
  induction l as [| z r IH]; simpl; intros Hs.
  - constructor; constructor.
  - apply StronglySorted_inv in Hs as [Hr Hz].
    destruct (String.leb x z) eqn:Hxz.
    + constructor; [constructor; assumption |].
      constructor; [exact Hxz |].
      eapply Forall_impl; [| exact Hz].
      intros a Ha; exact (string_leb_trans _ _ _ Hxz Ha).
    + constructor; [exact (IH Hr) |].
      apply Forall_forall; intros a Ha.
      apply insert_sorted_In in Ha as [-> | Ha].
      * destruct (String.leb_total x z) as [H | H]; [congruence | exact H].
      * rewrite Forall_forall in Hz; exact (Hz a Ha).
Qed.

Lemma insert_sorted_NoDup (x : string) (l : list string) :
  ~ In x l -> NoDup l -> NoDup (insert_sorted x l).
Proof.
  induction l as [| z r IH]; simpl; intros Hx Hnd.
  - constructor; [intros [] | constructor].
  - destruct (String.leb x z).
    + constructor; assumption.
    + apply NoDup_cons_iff in Hnd as [Hz Hr].
      constructor.
      * rewrite insert_sorted_In; intros [-> | Hin]; [apply Hx; left; reflexivity |].
        contradiction.
      * apply IH; [intros Hin; apply Hx; right; exact Hin | exact Hr].
Qed.

Lemma py_sorted_In (y : string) (l : list string) :
  In y (py_sorted l) <-> In y l.
Proof.
  unfold py_sorted; induction l as [| x r IH]; simpl; [reflexivity |].
  rewrite insert_sorted_In, IH; intuition.
Qed.

Lemma py_sorted_sorted (l : list string) : StronglySorted le (py_sorted l).
Proof.
  unfold py_sorted; induction l as [| x r IH]; simpl.
  - constructor.
  - apply insert_sorted_sorted; exact IH.
Qed.

Lemma py_sorted_NoDup (l : list string) : NoDup l -> NoDup (py_sorted l).
Proof.
  unfold py_sorted; induction l as [| x r IH]; simpl; intros Hnd.
  - constructor.
  - apply NoDup_cons_iff in Hnd as [Hx Hr].
    apply insert_sorted_NoDup; [| exact (IH Hr)].
    intros Hin; apply Hx.
    apply (py_sorted_In x r); exact Hin.
Qed.

Lemma sorted_NoDup_strict (l : list string) :
  StronglySorted le l -> NoDup l -> StronglySorted lt l.
Proof.
  induction l as [| x r IH]; intros Hs Hnd; [constructor |].
  apply StronglySorted_inv in Hs as [Hr Hx].
  apply NoDup_cons_iff in Hnd as [Hnx Hndr].
  constructor; [exact (IH Hr Hndr) |].
  apply Forall_forall; intros a Ha.
  rewrite Forall_forall in Hx.
  apply string_ltb_leb; [exact (Hx a Ha) |].
  intros ->; contradiction.
Qed.

Lemma strict_sorted_filter (f : string -> bool) (l : list string) :
  StronglySorted lt l -> StronglySorted lt (filter f l).
Proof.
  induction l as [| x r IH]; simpl; intros Hs; [constructor |].
  apply StronglySorted_inv in Hs as [Hr Hx].
  destruct (f x); [| exact (IH Hr)].
  constructor; [exact (IH Hr) |].
  apply Forall_forall; intros a Ha.
  apply filter_In in Ha as [Ha _].
  rewrite Forall_forall in Hx; exact (Hx a Ha).
Qed.

Lemma strict_sorted_NoDup (l : list string) : StronglySorted lt l -> NoDup l.
Proof.
  induction l as [| x r IH]; intros Hs; [constructor |].
  apply StronglySorted_inv in Hs as [Hr Hx].
  constructor; [| exact (IH Hr)].
  intros Hin; rewrite Forall_forall in Hx.
  specialize (Hx x Hin).
  unfold String.ltb in Hx; rewrite string_compare_refl in Hx; discriminate.
Qed.

Lemma py_in_In (p : string) (l : list string) : py_in p l = true <-> In p l.
Proof.
  unfold py_in; rewrite existsb_exists; split.
  - intros (q & Hq & Hpq); apply String.eqb_eq in Hpq; subst; exact Hq.
  - intros Hp; exists p; split; [exact Hp | apply String.eqb_refl].
Qed.

Lemma py_in_false (p : string) (l : list string) : py_in p l = false <-> ~ In p l.
Proof.
  rewrite <- py_in_In; destruct (py_in p l); split; congruence.
Qed.

Lemma filter_all (f : string -> bool) (l : list string) :
  (forall q, In q l -> f q = true) -> filter f l = l.
Proof.
  induction l as [| x r IH]; simpl; intros H; [reflexivity |].
  rewrite (H x (or_introl eq_refl)), IH; [reflexivity |].
  intros q Hq; apply H; right; exact Hq.
Qed.

Lemma filter_twice (f g : string -> bool) (l : list string) :
  filter f (filter g l) = filter (fun q => (g q && f q)%bool) l.
Proof.
  induction l as [| x r IH]; simpl; [reflexivity |].
  destruct (g x); simpl; [destruct (f x); rewrite IH; reflexivity | exact IH].
Qed.

Lemma py_remove_filter (p : string) (l : list string) :
  NoDup l -> py_remove p l = filter (fun q => negb (q =? p)%string) l.
Proof.
  induction l as [| y r IH]; simpl; intros Hnd; [reflexivity |].
  apply NoDup_cons_iff in Hnd as [Hy Hr].
  rewrite (String.eqb_sym y p).
  destruct (String.eqb_spec p y) as [-> | Hne]; simpl.
  - symmetry; apply filter_all.
    intros q Hq; apply negb_true_iff, String.eqb_neq.
    intros ->; contradiction.
  - rewrite (IH Hr); reflexivity.
Qed.

Lemma py_remove_absent (p : string) (l : list string) :
  ~ In p l -> py_remove p l = l.
Proof.
  induction l as [| y r IH]; simpl; intros Hp; [reflexivity |].
  destruct (String.eqb_spec p y) as [-> | Hne].
  - exfalso; apply Hp; left; reflexivity.
  - rewrite IH; [reflexivity | intros Hin; apply Hp; right; exact Hin].
Qed.

Lemma py_remove_app (p : string) (l l' : list string) :
  ~ In p l -> py_remove p (l ++ l') = (l ++ py_remove p l')%list.
Proof.
  induction l as [| y r IH]; simpl; intros Hp; [reflexivity |].
  destruct (String.eqb_spec p y) as [-> | Hne].
  - exfalso; apply Hp; left; reflexivity.
  - rewrite IH; [reflexivity | intros Hin; apply Hp; right; exact Hin].
Qed.

(** Surfacing the packages of a duplicate-free list [ps], last one
    first, puts those present at the front in the order of [ps] and
    leaves the others in their order. *)
Lemma surface_all (ps l : list string) :
  NoDup l -> NoDup ps ->
  fold_right (fun p acc => surface acc p) l ps
  = (filter (fun p => py_in p l) ps
     ++ filter (fun q => negb (py_in q ps)) l)%list.
Proof.
  intros Hl; induction ps as [| p ps' IH]; intros Hps; simpl.
  - symmetry; apply filter_all; reflexivity.
  - apply NoDup_cons_iff in Hps as [Hp Hps'].
    rewrite (IH Hps'); clear IH.
    set (A := filter (fun p0 => py_in p0 l) ps').
    set (B := filter (fun q => negb (py_in q ps')) l).
    assert (HpA : ~ In p A).
    { unfold A; rewrite filter_In; intros [Hin _]; contradiction. }
    assert (Hin : py_in p (A ++ B) = py_in p l).
    { destruct (py_in p l) eqn:Hpl.
      - apply py_in_In, in_or_app; right.
        unfold B; apply filter_In; split; [apply py_in_In; exact Hpl |].
        apply negb_true_iff, py_in_false; exact Hp.
      - apply py_in_false; intros Hc.
        apply in_app_or in Hc as [Hc | Hc]; [contradiction |].
        unfold B in Hc; apply filter_In in Hc as [Hc _].
        apply py_in_In in Hc; congruence. }
    unfold surface; rewrite Hin.
    destruct (py_in p l) eqn:Hpl; simpl.
    + f_equal.
      rewrite py_remove_app by exact HpA; f_equal.
      rewrite py_remove_filter by (unfold B; apply NoDup_filter; exact Hl).
      unfold B; rewrite filter_twice.
      apply filter_ext; intros q.
      destruct (q =? p)%string, (py_in q ps'); reflexivity.
    + f_equal.
      unfold B; apply filter_ext_in; intros q Hq.
      destruct (String.eqb_spec q p) as [-> | Hne]; [| reflexivity].
      apply py_in_false in Hpl; contradiction.
Qed.

End SortFacts.

(** ** The environment report *)

Section SysInfoFacts.
Import SysInfo.
Variables (env : Env) (additional_pkgs : list string).

Local Notation lt := (fun a b : string => String.ltb a b = true).
Local Notation discovered := (discovered_packages env additional_pkgs).
Local Notation listed := (all_packages env additional_pkgs).
Local Notation surfaced := (filter (fun p => py_in p discovered) order_by).
Local Notation others := (filter (fun p => negb (py_in p order_by)) discovered).

Lemma discovered_In (p : string) :
  In p discovered <->
  (In p (iter_modules env) /\ String.prefix "langchain" p = true)
  \/ In p other_langchain_packages \/ In p additional_pkgs.
Proof.
  unfold discovered_packages, py_set.
  rewrite py_sorted_In, nodup_In, !in_app_iff, filter_In.
  reflexivity.
Qed.

Lemma discovered_strict : StronglySorted lt discovered.
Proof.
  apply sorted_NoDup_strict.
  - apply py_sorted_sorted.
  - apply py_sorted_NoDup, NoDup_nodup.
Qed.

Lemma order_by_NoDup : NoDup order_by.
Proof.
  unfold order_by.
  repeat (constructor; [simpl; intuition discriminate |]).
  constructor.
Qed.

Lemma listed_eq : listed = (surfaced ++ others)%list.
Proof.
  rewrite <- surface_all.
  - reflexivity.
  - apply strict_sorted_NoDup, discovered_strict.
  - apply order_by_NoDup.
Qed.

Lemma listed_In (p : string) : In p listed <-> In p discovered.
Proof.
  rewrite listed_eq, in_app_iff, !filter_In; split.
  - intros [[_ H] | [H _]]; [apply py_in_In; exact H | exact H].
  - intros H.
    destruct (py_in p order_by) eqn:Hob.
    + left; split; [apply py_in_In; exact Hob | apply py_in_In; exact H].
    + right; split; [exact H | reflexivity].
Qed.

Lemma listed_NoDup : NoDup listed.
Proof.
  rewrite listed_eq; apply NoDup_app.
  - apply NoDup_filter, order_by_NoDup.
  - apply NoDup_filter, strict_sorted_NoDup, discovered_strict.
  - intros a Ha Hb.
    apply filter_In in Ha as [Ha _], Hb as [_ Hb].
    apply py_in_In in Ha; rewrite Ha in Hb; discriminate.
Qed.

(** The reporting loop, as the two lists it builds. *)
Lemma report_loop (pkgs printed not_installed : list string) :
  fold_left (report_package env) pkgs (printed, not_installed)
  = ((printed ++ map (package_line env) (filter (is_found env) pkgs))%list,
     (not_installed ++ filter (fun p => negb (is_found env p)) pkgs)%list).
Proof.
  revert printed not_installed.
  induction pkgs as [| p r IH]; intros printed not_installed; simpl.
  - rewrite !app_nil_r; reflexivity.
  - destruct (is_found env p); simpl; rewrite IH, <- app_assoc; reflexivity.
Qed.

Lemma print_sys_info_eq :
  print_sys_info env additional_pkgs
  = (header env
     ++ map (package_line env) (filter (is_found env) listed)
     ++ not_installed_section (filter (fun p => negb (is_found env p)) listed))%list.
Proof.
  unfold print_sys_info; rewrite report_loop, app_assoc; reflexivity.
Qed.

(** X11: the package list before surfacing is strictly ascending, hence
    free of duplicates, and holds exactly the modules of the
    environment whose name starts with "langchain", the packages
    langserve and langgraph, and the additional packages. *)
Theorem discovered_packages_sorted_set :
  StronglySorted (fun a b => String.ltb a b = true)
                 (discovered_packages env additional_pkgs)
  /\ forall p,
       In p (discovered_packages env additional_pkgs) <->
       (In p (iter_modules env) /\ String.prefix "langchain" p = true)
       \/ p = "langserve" \/ p = "langgraph" \/ In p additional_pkgs.
Proof.
  split; [apply discovered_strict |].
  intros p; rewrite discovered_In; simpl.
  intuition.
Qed.

(** X12: the surfacing loop puts those of langchain_core, langchain and
    langchain_community that are in the list at its head, in that
    order, and leaves every other package behind them in ascending
    order. *)
Theorem all_packages_surfaced_first :
  all_packages env additional_pkgs
  = (filter (fun p => py_in p (discovered_packages env additional_pkgs)) order_by
     ++ filter (fun p => negb (py_in p order_by))
               (discovered_packages env additional_pkgs))%list
  /\ StronglySorted (fun a b => String.ltb a b = true)
       (filter (fun p => negb (py_in p order_by))
               (discovered_packages env additional_pkgs)).
Proof.
  split; [apply listed_eq |].
  apply strict_sorted_filter, discovered_strict.
Qed.

(** X13: the surfacing loop loses and repeats nothing: the final list
    is free of duplicates and holds exactly the langchain modules of
    the environment, langserve, langgraph and the additional
    packages. *)
Theorem all_packages_NoDup_members :
  NoDup (all_packages env additional_pkgs)
  /\ forall p,
       In p (all_packages env additional_pkgs) <->
       (In p (iter_modules env) /\ String.prefix "langchain" p = true)
       \/ p = "langserve" \/ p = "langgraph" \/ In p additional_pkgs.
Proof.
  split; [apply listed_NoDup |].
  intros p; rewrite listed_In, discovered_In; simpl.
  intuition.
Qed.

(** X14: the report is the header, then one line for each listed
    package that is found, in list order, then the closing section
    naming the listed packages that are not found (the lookup came
    back empty or raised), in list order. *)
Theorem print_sys_info_report :
  print_sys_info env additional_pkgs
  = (header env
     ++ map (package_line env)
            (filter (is_found env) (all_packages env additional_pkgs))
     ++ not_installed_section
          (filter (fun p => negb (is_found env p))
                  (all_packages env additional_pkgs)))%list.
Proof. exact print_sys_info_eq. Qed.

(** X15: the report has its closing "not found" section exactly when
    some listed package is not found. *)
Theorem print_sys_info_closing_section :
  In "The following packages were not found:" (print_sys_info env additional_pkgs)
  <-> exists p, In p (all_packages env additional_pkgs) /\ is_found env p = false.
Proof.
  rewrite print_sys_info_eq, !in_app_iff.
  remember (filter (fun p => negb (is_found env p)) listed) as missing eqn:Em.
  assert (Hm : forall p, In p missing <-> In p listed /\ is_found env p = false).
  { intros p; rewrite Em, filter_In, negb_true_iff; reflexivity. }
  clear Em.
  split.
  - intros [H | [H | H]].
    + unfold header in H; simpl in H.
      repeat (destruct H as [H | H]; [discriminate H |]); contradiction.
    + apply in_map_iff in H as (p & Hp & _).
      unfold package_line in Hp.
      destruct (metadata_version env p); discriminate Hp.
    + destruct missing as [| p r]; [contradiction |].
      exists p; apply Hm; left; reflexivity.
  - intros (p & Hp).
    apply Hm in Hp.
    right; right.
    destruct missing as [| q r]; [contradiction |].
    simpl; auto 6.
Qed.

(** X16: every listed package accounts for exactly one line: the report
    has the nine header lines, one line per listed package, and five
    more lines when some listed package is not found. *)
Theorem print_sys_info_length :
  List.length (print_sys_info env additional_pkgs)
  = (9 + List.length (all_packages env additional_pkgs)
     + if forallb (is_found env) (all_packages env additional_pkgs) then 0 else 5)%nat.
Proof.
  rewrite print_sys_info_eq, !length_app, length_map.
  rewrite <- (filter_length (is_found env) listed).
  assert (Hall : forallb (is_found env) listed = true ->
                 filter (fun p => negb (is_found env p)) listed = []).
  { intros Hf; rewrite forallb_forall in Hf.
    induction listed as [| p r IH]; simpl; [reflexivity |].
    rewrite (Hf p (or_introl eq_refl)); simpl.
    apply IH; intros q Hq; apply Hf; right; exact Hq. }
  destruct (forallb (is_found env) listed) eqn:Hf.
  - rewrite (Hall eq_refl); simpl; lia.
  - assert (Hne : filter (fun p => negb (is_found env p)) listed <> []).
    { intros E.
      assert (Hlen := filter_length (is_found env) listed).
      rewrite E in Hlen; simpl in Hlen; rewrite Nat.add_0_r in Hlen.
      apply filter_length_forallb in Hlen; congruence. }
    destruct (filter (fun p => negb (is_found env p)) listed) as [| q r];
      [contradiction Hne; reflexivity |].
    simpl; rewrite length_map; simpl; lia.
Qed.

(** X17: when langchain_core, langchain and langchain_community are
    all modules of the environment or additional packages, the final
    list starts with the three of them, in that order, and none of
    them comes again. *)
Theorem all_packages_core_first :
  (forall p, In p order_by -> In p (iter_modules env ++ additional_pkgs)) ->
  exists rest,
    all_packages env additional_pkgs
    = "langchain_core" :: "langchain" :: "langchain_community" :: rest
    /\ forall p, In p order_by -> ~ In p rest.
Proof.
  intros H.
  assert (Hd : forall p, In p order_by -> py_in p discovered = true).
  { intros p Hp; apply py_in_In, discovered_In.
    destruct (in_app_or _ _ _ (H p Hp)) as [Hi | Ha]; [left | right; right; exact Ha].
    split; [exact Hi |].
    simpl in Hp; destruct Hp as [<- | [<- | [<- | []]]]; reflexivity. }
  exists others; split.
  - rewrite listed_eq.
    rewrite (filter_all _ order_by) by exact Hd.
    reflexivity.
  - intros p Hp Hin.
    apply filter_In in Hin as [_ Hin].
    apply py_in_In in Hp; rewrite Hp in Hin; discriminate.
Qed.

End SysInfoFacts.

Lemma all_packages_core_first_witness :
  exists rest,
    SysInfo.all_packages example_env ["numpy"; "langchain"]
    = "langchain_core" :: "langchain" :: "langchain_community" :: rest
    /\ forall p, In p SysInfo.order_by -> ~ In p rest.
Proof.
  apply (@all_packages_core_first example_env ["numpy"; "langchain"]).
  intros p Hp; simpl in Hp; simpl.
  destruct Hp as [<- | [<- | [<- | []]]]; auto 10.
Defined.

(** ** Interpolation of concatenated templates *)

Lemma append_assoc (a b c : string) : ((a ++ b) ++ c = a ++ (b ++ c))%string.
Proof. induction a as [| x r IH]; simpl; [reflexivity | rewrite IH; reflexivity]. Qed.

Lemma bind_Returns_id (m : Outcome string) :
  (r <- m ;; Returns (EmptyString ++ r)) = m.
Proof. destruct m; reflexivity. Qed.

Section FormatComposition.
Variables (D : string) (K : Z).

(** A template that interpolates on its own leaves the scanner in
    literal text, so what follows it is interpolated as if alone. *)
Lemma scan_app (a b : string) :
  forall (m : PyFormat.Mode) (ra : string),
    PyFormat.scan D K m a = Returns ra ->
    PyFormat.scan D K m (a ++ b)
    = (rb <- PyFormat.scan D K PyFormat.Lit b ;; Returns (ra ++ rb)).
Proof.
  induction a as [| c t IH]; intros m ra H.
  - destruct m; simpl in H; try discriminate.
    injection H as <-; simpl.
    symmetry; apply bind_Returns_id.
  - destruct m; simpl in H |- *.
    + destruct (Ascii.eqb c "{"); [exact (IH _ _ H) |].
      destruct (Ascii.eqb c "}"); [exact (IH _ _ H) |].
      apply bind_Returns in H as (out & Hout & [= <-]).
      rewrite (IH _ _ Hout).
      destruct (PyFormat.scan D K PyFormat.Lit b); reflexivity.
    + destruct (Ascii.eqb c "{").
      { apply bind_Returns in H as (out & Hout & [= <-]).
        rewrite (IH _ _ Hout).
        destruct (PyFormat.scan D K PyFormat.Lit b); reflexivity. }
      destruct (Ascii.eqb c "}"); [discriminate |].
      destruct (PyFormat.leaves_fragment c); [discriminate | exact (IH _ _ H)].
    + destruct (Ascii.eqb c "}").
      { apply bind_Returns in H as (v & Hv & H).
        apply bind_Returns in H as (out & Hout & [= <-]).
        rewrite Hv, (IH _ _ Hout); simpl.
        destruct (PyFormat.scan D K PyFormat.Lit b); simpl;
          [rewrite append_assoc | |]; reflexivity. }
      destruct (Ascii.eqb c "{"); [discriminate |].
      destruct (PyFormat.leaves_fragment c); [discriminate | exact (IH _ _ H)].
    + destruct (Ascii.eqb c "}"); [| discriminate].
      apply bind_Returns in H as (out & Hout & [= <-]).
      rewrite (IH _ _ Hout).
      destruct (PyFormat.scan D K PyFormat.Lit b); reflexivity.
Qed.

(** X1: interpolation distributes over concatenation: when a template
    interpolates on its own, interpolating it followed by a second
    template gives its text followed by the text of the second, and
    raises what the second raises. *)
Theorem format_app (a b ra : string) :
  PyFormat.format a D K = Returns ra ->
  PyFormat.format (a ++ b) D K
  = (rb <- PyFormat.format b D K ;; Returns (ra ++ rb)).
Proof. unfold PyFormat.format; apply scan_app. Qed.

(** X2: a prefix of the shape of the SQL prefix, brace-free text around
    one [{dialect}] field and one [{top_k}] field, always interpolates:
    to the same text with the dialect name and the decimal row limit in
    place of the fields. *)
Theorem format_sql_prefix_shape (a b c : string) :
  PyFormat.brace_free a = true ->
  PyFormat.brace_free b = true ->
  PyFormat.brace_free c = true ->
  PyFormat.format (a ++ "{dialect}" ++ b ++ "{top_k}" ++ c) D K
  = Returns (a ++ D ++ b ++ PyFormat.str_of_int K ++ c).
Proof.
  intros Ha Hb Hc.
  unfold PyFormat.format.
  rewrite scan_app with (ra := a) by (apply scan_brace_free; exact Ha).
  change (PyFormat.scan D K PyFormat.Lit ("{dialect}" ++ b ++ "{top_k}" ++ c))
    with (out <- PyFormat.scan D K PyFormat.Lit (b ++ "{top_k}" ++ c) ;;
          Returns (D ++ out)).
  rewrite scan_app with (ra := b) by (apply scan_brace_free; exact Hb).
  change (PyFormat.scan D K PyFormat.Lit ("{top_k}" ++ c))
    with (out <- PyFormat.scan D K PyFormat.Lit c ;;
          Returns (PyFormat.str_of_int K ++ out)).
  rewrite scan_brace_free by exact Hc.
  reflexivity.
Qed.

End FormatComposition.

Lemma format_app_witness :
  PyFormat.format ("{{{dialect}}}" ++ " at most {top_k}") "sqlite" 10
  = Returns ("{sqlite}" ++ " at most 10").
Proof.
  apply (@format_app "sqlite" 10 "{{{dialect}}}" " at most {top_k}" "{sqlite}").
  reflexivity.
Defined.

Lemma format_sql_prefix_shape_witness :
  PyFormat.format ("Write a " ++ "{dialect}" ++ " query with at most "
                   ++ "{top_k}" ++ " rows.") "sqlite" 10
  = Returns "Write a sqlite query with at most 10 rows.".
Proof.
  apply (@format_sql_prefix_shape "sqlite" 10 "Write a " " query with at most "
           " rows."); reflexivity.
Defined.

(** ** More on the constructor *)

Section ConstructionOutcomes.
Context {I : Imports}.
Variables (llm : BaseLanguageModel) (toolkit : SQLDatabaseToolkit)
          (callback_manager : option BaseCallbackManager)
          (prefix : string) (input_variables : option (list string))
          (top_k : Z) (max_iterations : option Z)
          (max_execution_time : option PyFloat)
          (early_stopping_method : string) (verbose : bool)
          (agent_executor_kwargs : option (Dict Any))
          (extra_tools : list BaseTool).

Local Notation build a sfx fi kw :=
  (create_sql_agent llm toolkit a callback_manager prefix sfx fi
                    input_variables top_k max_iterations max_execution_time
                    early_stopping_method verbose agent_executor_kwargs
                    extra_tools kw).
Local Notation interpolated := (PyFormat.format prefix (dialect toolkit) top_k).
Local Notation chosen a := (str_or a ZERO_SHOT_REACT_DESCRIPTION).
Local Notation dispatched a :=
  ((chosen a =? ZERO_SHOT_REACT_DESCRIPTION)%string
   || (chosen a =? OPENAI_FUNCTIONS)%string)%bool.

Lemma find_existsb (A : Type) (f : A -> bool) (l : list A) :
  existsb f l = true -> exists x, find f l = Some x /\ f x = true.
Proof.
  induction l as [| y r IH]; simpl; [discriminate |].
  destruct (f y) eqn:Hy; simpl; [exists y; auto | exact IH].
Qed.

(** X3: a call returns a unit only when it is given no extra keyword
    argument, its prefix template interpolates, no executor override
    repeats a keyword the constructor passes by name, and the agent
    type (the zero-shot one when omitted or empty) is one of the two
    the dispatch knows. *)
Theorem create_sql_agent_returns_only_if a sfx fi kw :
  (exists u, build a sfx fi kw = Returns u) ->
  kw = []
  /\ (exists p, interpolated = Returns p)
  /\ existsb is_explicit_keyword (dict_or_empty agent_executor_kwargs) = false
  /\ dispatched a = true.
Proof.
  intros [u H].
  apply create_sql_agent_inv in H as (-> & Hfind & p & Hp & H).
  split; [reflexivity |].
  split; [exists p; exact Hp |].
  split.
  - destruct (existsb is_explicit_keyword _) eqn:Hex; [| reflexivity].
    apply find_existsb in Hex as (kv & Hkv & _); congruence.
  - destruct H as [[Hz _] | (_ & Ho & _)]; rewrite ?Hz, ?Ho;
      [reflexivity | apply orb_true_r].
Qed.

(** X4: a returned unit carries the execution configuration as given:
    callback manager, verbosity, iteration cap, time cap and early
    stopping method are the arguments, the additional keywords are the
    executor overrides (none when omitted), none of which repeats a
    keyword passed by name, and the agent takes its input under the key
    "input". *)
Theorem create_sql_agent_configuration a sfx fi kw u :
  build a sfx fi kw = Returns u ->
  ae_callback_manager u = callback_manager
  /\ ae_verbose u = verbose
  /\ ae_max_iterations u = max_iterations
  /\ ae_max_execution_time u = max_execution_time
  /\ ae_early_stopping_method u = early_stopping_method
  /\ ae_kwargs u = dict_or_empty agent_executor_kwargs
  /\ (forall k, In k explicit_keywords -> dict_has k (ae_kwargs u) = false)
  /\ input_keys_arg (ae_agent u) = ["input"].
Proof.
  intros H.
  apply create_sql_agent_inv in H as (_ & Hfind & p & _ & H).
  assert (Hkw : forall k, In k explicit_keywords ->
                  dict_has k (dict_or_empty agent_executor_kwargs) = false).
  { intros k Hk.
    destruct (dict_has k (dict_or_empty agent_executor_kwargs)) eqn:Hh;
      [| reflexivity].
    unfold dict_has, dict_keys in Hh.
    apply existsb_exists in Hh as (k' & Hin & Heq).
    apply String.eqb_eq in Heq; subst k'.
    apply in_map_iff in Hin as (kv & Hkv & Hin).
    apply (find_none _ _ Hfind) in Hin.
    unfold is_explicit_keyword in Hin; rewrite Hkv in Hin.
    assert (Hex : existsb (String.eqb k) explicit_keywords = true).
    { apply existsb_exists; exists k; split; [exact Hk | apply String.eqb_refl]. }
    congruence. }
  destruct H as [[_ ->] | (_ & _ & ->)]; simpl; repeat split; auto.
Qed.

(** X5: when the call gets as far as the executor (no extra keyword
    argument, a prefix that interpolates, a known agent type), an
    executor override that repeats a keyword the constructor passes by
    name makes it raise [TypeError]: the overrides cannot replace the
    agent, the tools or the execution limits. *)
Theorem create_sql_agent_override_collision a sfx fi p :
  interpolated = Returns p ->
  dispatched a = true ->
  existsb is_explicit_keyword (dict_or_empty agent_executor_kwargs) = true ->
  exists msg, build a sfx fi [] = Raises (TypeError msg).
Proof.
  intros Hp Hd Hex.
  apply find_existsb in Hex as (kv & Hfind & _).
  unfold create_sql_agent; rewrite Hp; simpl.
  destruct (chosen a =? ZERO_SHOT_REACT_DESCRIPTION)%string; simpl.
  - unfold AgentExecutor_call; rewrite Hfind; eexists; reflexivity.
  - simpl in Hd; rewrite Hd; simpl.
    unfold AgentExecutor_call; rewrite Hfind; eexists; reflexivity.
Qed.

(** X6: the prefix is interpolated before the agent type is looked at:
    without extra keyword arguments, an exception of the interpolation
    is the exception of the call, for every agent type, supported or
    not. *)
Theorem create_sql_agent_prefix_error a sfx fi e :
  PyFormat.format prefix (dialect toolkit) top_k = Raises e ->
  create_sql_agent llm toolkit a callback_manager prefix sfx fi
                   input_variables top_k max_iterations max_execution_time
                   early_stopping_method verbose agent_executor_kwargs
                   extra_tools []
  = Raises e.
Proof.
  intros Hp; unfold create_sql_agent; rewrite Hp; reflexivity.
Qed.

End ConstructionOutcomes.

(** X19: the function-calling strategy uses neither the format
    instructions nor the input variables: two calls that differ in
    these arguments alone have the same outcome. *)
Theorem functions_agent_ignores_zero_shot_arguments
    {I : Imports} (llm : BaseLanguageModel) (toolkit : SQLDatabaseToolkit)
    (callback_manager : option BaseCallbackManager)
    (prefix : string) (suffix fi fi' : option string)
    (iv iv' : option (list string))
    (top_k : Z) (max_iterations : option Z) (max_execution_time : option PyFloat)
    (early_stopping_method : string) (verbose : bool)
    (agent_executor_kwargs : option (Dict Any)) (extra_tools : list BaseTool)
    (kwargs : Dict Any) :
  str_truthy OPENAI_FUNCTIONS = true ->
  ZERO_SHOT_REACT_DESCRIPTION <> OPENAI_FUNCTIONS ->
  create_sql_agent llm toolkit (Some OPENAI_FUNCTIONS) callback_manager prefix suffix
                   fi iv top_k max_iterations max_execution_time
                   early_stopping_method verbose agent_executor_kwargs
                   extra_tools kwargs
  = create_sql_agent llm toolkit (Some OPENAI_FUNCTIONS) callback_manager prefix suffix
                     fi' iv' top_k max_iterations max_execution_time
                     early_stopping_method verbose agent_executor_kwargs
                     extra_tools kwargs.
Proof.
  intros Ht Hd.
  assert (Hoz : (OPENAI_FUNCTIONS =? ZERO_SHOT_REACT_DESCRIPTION)%string = false).
  { apply String.eqb_neq; congruence. }
  unfold create_sql_agent.
  rewrite (str_or_truthy _ _ Ht), Hoz.
  reflexivity.
Qed.

Lemma create_sql_agent_returns_only_if_witness :
  ([] : Dict Z) = []
  /\ (exists p, PyFormat.format (@SQL_PREFIX example_imports) "sqlite" 10 = Returns p)
  /\ existsb (@is_explicit_keyword example_imports) [("handle_parsing_errors", 1)]
     = false.
Proof.
  destruct (@create_sql_agent_returns_only_if example_imports "llm" example_toolkit
              None (@SQL_PREFIX example_imports) None 10 (Some 15) None "force"
              false (Some [("handle_parsing_errors", 1)]) []
              (Some "openai-functions") None None [])
    as (Hk & Hp & He & _).
  - eexists; reflexivity.
  - split; [exact Hk | split; [exact Hp | exact He]].
Defined.

Lemma create_sql_agent_configuration_witness :
  exists u,
    example_call None (@SQL_PREFIX example_imports) None None [] [] = Returns u
    /\ ae_max_iterations u = Some 15
    /\ ae_early_stopping_method u = "force"
    /\ ae_kwargs u = [].
Proof.
  eexists; split; [reflexivity |].
  destruct (@create_sql_agent_configuration example_imports "llm" example_toolkit None
              (@SQL_PREFIX example_imports) None 10 (Some 15) None "force" false
              None [] None None None [] _ eq_refl)
    as (_ & _ & Hi & _ & He & Hk & _).
  split; [exact Hi | split; [exact He | exact Hk]].
Defined.

Lemma create_sql_agent_override_collision_witness :
  exists msg,
    @create_sql_agent example_imports "llm" example_toolkit
      (Some "openai-functions") None (@SQL_PREFIX example_imports) None None None
      10 (Some 15) None "force" false
      (Some [("handle_parsing_errors", 1); ("tools", 0)]) [] []
    = Raises (TypeError msg).
Proof.
  apply (@create_sql_agent_override_collision example_imports "llm" example_toolkit
           None (@SQL_PREFIX example_imports) None 10 (Some 15) None "force" false
           (Some [("handle_parsing_errors", 1); ("tools", 0)]) []
           (Some "openai-functions") None None
           "Create a syntactically correct sqlite query; limit it to 10 results.");
    reflexivity.
Defined.

Lemma create_sql_agent_prefix_error_witness :
  example_call (Some "bogus") "List the {table} rows" None None [] []
  = Raises (KeyError "table").
Proof.
  apply (@create_sql_agent_prefix_error example_imports "llm" example_toolkit None
           "List the {table} rows" None 10 (Some 15) None "force" false None []
           (Some "bogus") None None (KeyError "table")).
  reflexivity.
Defined.

Lemma functions_agent_ignores_zero_shot_arguments_witness :
  example_call (Some "openai-functions") (@SQL_PREFIX example_imports) None
               (Some "Answer in one line.") [] []
  = example_call (Some "openai-functions") (@SQL_PREFIX example_imports) None
                 None [] [].
Proof.
  apply (@functions_agent_ignores_zero_shot_arguments example_imports "llm"
           example_toolkit None (@SQL_PREFIX example_imports) None
           (Some "Answer in one line.") None None None 10 (Some 15) None "force"
           false None [] []).
  - reflexivity.
  - intros E; discriminate E.
Defined.

(** X20: no listed package is dropped from the report: a package that
    is found has its version line in it, and one that is not found has
    its name in the closing section. *)
Theorem print_sys_info_reports_every_package
    (env : SysInfo.Env) (additional_pkgs : list string) (p : string) :
  In p (SysInfo.all_packages env additional_pkgs) ->
  In (if SysInfo.is_found env p
      then SysInfo.package_line env p
      else "> " ++ p)
     (SysInfo.print_sys_info env additional_pkgs).
Proof.
  intros Hp.
  rewrite print_sys_info_eq, !in_app_iff.
  destruct (SysInfo.is_found env p) eqn:Hf.
  - right; left.
    apply in_map, filter_In; split; assumption.
  - right; right.
    assert (Hin : In p (filter (fun q => negb (SysInfo.is_found env q))
                               (SysInfo.all_packages env additional_pkgs))).
    { apply filter_In; split; [exact Hp | rewrite Hf; reflexivity]. }
    destruct (filter _ _) as [| q r]; [contradiction |].
    unfold SysInfo.not_installed_section.
    apply in_or_app; right.
    apply (in_map (fun pkg => "> " ++ pkg)); exact Hin.
Qed.

Lemma print_sys_info_reports_every_package_witness :
  In "> langgraph" (SysInfo.print_sys_info example_env ["numpy"; "langchain"]).
Proof.
  apply (@print_sys_info_reports_every_package example_env ["numpy"; "langchain"]
           "langgraph").
  simpl; auto 10.
Defined.
